(** * scone-studio: the dependency build orchestrator [tools/build.py]

    A shallow embedding of the build script and the properties of its
    build sequencing, caching policy and failure behaviour.

    The script is sequential glue code around three kinds of effects:
    the filesystem ([pathlib] / [shutil]), child processes
    ([subprocess.check_call]) and the console ([print]).  It is embedded
    in a small monad that threads the state of the outside world, emits
    the trace of the effects performed and propagates Python exceptions. *)

From Stdlib Require Import ZArith List String Ascii DecimalString.
From stdpp Require Import base option list strings gmap.

Local Open Scope string_scope.
Local Open Scope list_scope.

(** ** Paths and the filesystem *)

(** An absolute, resolved path is the list of its components below the
    filesystem root; [ROOT = Path(__file__).resolve().parent.parent] is
    such a path. *)
Abbreviation path := (list string).

(** [p / name] of [pathlib]. *)
Definition joinpath (p : path) (name : string) : path := p ++ [name].
Infix "//" := joinpath (at level 40, left associativity).

(** [str(p)] of a POSIX path. *)
Definition str_path (p : path) : string :=
  match p with
  | [] => "/"
  | _ => String.concat "" (map (fun c => "/" +:+ c) p)
  end.

(** [str(n)] of a Python [int]. *)
Definition str_int (n : Z) : string := NilZero.string_of_int (Z.to_int n).

(** What [stat] reports at a path: a regular file or a directory.  A
    path at which [stat] fails is absent from the map.  The map is the
    view of a tree of directories and regular files; a symbolic link at
    a path the script makes or deletes, which [os.mkdir] and
    [shutil.rmtree] treat by what [lstat] finds there, is outside it.
    The properties below therefore never derive from the map that a
    directory gets created or deleted: they say what holds when it
    was, and where a run ends when it was not. *)
Inductive kind := File | Dir.

#[global] Instance kind_eq_dec : EqDecision kind.
Proof. solve_decision. Defined.

Abbreviation fsmap := (gmap path kind).

Definition stat (fs : fsmap) (p : path) : option kind :=
  match p with
  | [] => Some Dir
  | _ => fs !! p
  end.

Definition parent (p : path) : path := removelast p.

(** The paths above [p], from the filesystem root down. *)
Definition ancestors (p : path) : list path :=
  map (fun n => take n p) (seq 0 (length p)).

(** ** Effects *)

(** How an attempt to run a child process ends: it exits with a return
    code, or it cannot be started at all. *)
Inductive outcome :=
| Exited (rc : Z)
| NotStarted.

(** The effects a run performs, in the order it performs them.  [Call]
    and [Return] record the entry into, and the normal return from, a
    build step. *)
Inductive event :=
| Print (s : string)
| Subprocess (cmd : list string) (cwd : option path) (o : outcome)
| Mkdir (p : path) (exist_ok : bool)
| Rmtree (p : path)
| Call (f : string)
| Return (f : string).

(** The Python exceptions of a run.  [OSError] is the one of a child
    process that cannot be started; [SystemExit] is how the interpreter
    is told to end with a status of the program's choice. *)
Inductive exn :=
| CalledProcessError (returncode : Z) (cmd : list string)
| OSError (cmd : list string)
| FileExistsError (p : path)
| FileNotFoundError (p : path)
| NotADirectoryError (p : path)
| KeyError (k : string)
| SystemExit (code : Z).

(** The host the script runs on.  The state of the tools it shells out
    to (package index, network, clock, ...) is opaque; [system] is their
    behaviour: what running a command in a working directory returns and
    does to the filesystem.  The other fields are the host facts read at
    import time: [Path(__file__).resolve().parent.parent],
    [multiprocessing.cpu_count()] and [sys.platform]. *)
Class Host := {
  Env : Type;
  system : list string -> option path -> Env -> fsmap -> outcome * Env * fsmap;
  ROOT : path;
  cpu_count : Z;
  sys_platform : string
}.

Section Orchestrator.

Context `{Host}.

Record world := World { w_fs : fsmap; w_env : Env }.

Record result (A : Type) := Result {
  trace : list event;
  final : world;
  value : exn + A
}.
Arguments Result {A}.
Arguments trace {A}.
Arguments final {A}.
Arguments value {A}.

Definition M (A : Type) : Type := world -> result A.

Definition ret {A} (x : A) : M A :=
  fun w => Result [] w (inr x).

Definition raise {A} (e : exn) : M A :=
  fun w => Result [] w (inl e).

Definition bind {A B} (m : M A) (k : A -> M B) : M B :=
  fun w =>
    let r := m w in
    match value r with
    | inl e => Result (trace r) (final r) (inl e)
    | inr x =>
        let r' := k x (final r) in
        Result (trace r ++ trace r') (final r') (value r')
    end.

#[local] Notation "x <- m ;; k" := (bind m (fun x => k))
  (at level 100, m at next level, right associativity).
#[local] Notation "m ;; k" := (bind m (fun _ => k))
  (at level 100, right associativity).

Definition emit (e : event) : M unit :=
  fun w => Result [e] w (inr tt).

(** [for x in xs: body(x)] *)
Fixpoint for_each {A} (xs : list A) (body : A -> M unit) : M unit :=
  match xs with
  | [] => ret tt
  | x :: xs' => body x ;; for_each xs' body
  end.

(** A [def] whose calls are recorded in the trace. *)
Definition called {A} (f : string) (body : M A) : M A :=
  emit (Call f) ;;
  x <- body ;;
  emit (Return f) ;;
  ret x.

(** *** Primitives of the Python library *)

Definition print (s : string) : M unit := emit (Print s).

(** [p.exists()] *)
Definition path_exists (p : path) : M bool :=
  fun w => Result [] w (inr (bool_decide (is_Some (stat (w_fs w) p)))).

(** [p.mkdir(exist_ok=...)]: without [parents=True] the parent must be
    there; an existing directory is accepted only with [exist_ok], an
    existing file never.  When the parent is missing the error is that
    of the path resolution: [NotADirectoryError] when a regular file is
    on the way, [FileNotFoundError] otherwise.  The map has no symbolic
    links (see [kind]). *)
Definition mkdir (p : path) (exist_ok : bool) : M unit :=
  fun w =>
    match stat (w_fs w) p with
    | Some Dir =>
        Result [Mkdir p exist_ok] w
          (if exist_ok then inr tt else inl (FileExistsError p))
    | Some File => Result [Mkdir p exist_ok] w (inl (FileExistsError p))
    | None =>
        match stat (w_fs w) (parent p) with
        | Some Dir =>
            Result [Mkdir p exist_ok]
              (World (<[p := Dir]> (w_fs w)) (w_env w)) (inr tt)
        | Some File =>
            Result [Mkdir p exist_ok] w (inl (NotADirectoryError p))
        | None =>
            Result [Mkdir p exist_ok] w
              (inl (if existsb
                         (fun q => bool_decide (stat (w_fs w) q = Some File))
                         (ancestors p)
                    then NotADirectoryError p
                    else FileNotFoundError p))
        end
    end.

(** [shutil.rmtree(p)]: removes the directory and everything below; a
    regular file is refused when its entries are listed.  The script
    calls it only on a path that [exists()].  The map has no symbolic
    links (see [kind]). *)
Definition rmtree (p : path) : M unit :=
  fun w =>
    match stat (w_fs w) p with
    | Some Dir =>
        Result [Rmtree p]
          (World (filter (fun e => ¬ (p `prefix_of` e.1)) (w_fs w))
                 (w_env w))
          (inr tt)
    | Some File => Result [Rmtree p] w (inl (NotADirectoryError p))
    | None => Result [Rmtree p] w (inl (FileNotFoundError p))
    end.

(** [subprocess.check_call(cmd, cwd=cwd)]: the child inherits the
    console, the call blocks until it ends, and any return code other
    than zero raises. *)
Definition check_call (cmd : list string) (cwd : option path) : M unit :=
  fun w =>
    let s := system cmd cwd (w_env w) (w_fs w) in
    let o := s.1.1 in
    Result [Subprocess cmd cwd o] (World s.2 s.1.2)
      match o with
      | Exited rc =>
          if (rc =? 0)%Z then inr tt else inl (CalledProcessError rc cmd)
      | NotStarted => inl (OSError cmd)
      end.

(** A [dict] with string keys, in insertion order. *)
Definition dict (V : Type) : Type := list (string * V).

Fixpoint dict_get {V} (d : dict V) (k : string) : option V :=
  match d with
  | [] => None
  | (k', v) :: d' => if String.eqb k k' then Some v else dict_get d' k
  end.

Definition keys {V} (d : dict V) : list string := map fst d.
Definition values {V} (d : dict V) : list V := map snd d.

(** [d[k]] *)
Definition getitem {V} (d : dict V) (k : string) : M V :=
  match dict_get d k with
  | Some v => ret v
  | None => raise (KeyError k)
  end.

(** ** The script *)

Definition CORES : Z := cpu_count / 2.
Definition SUB : path := ROOT // "submodules".
Definition DEPS : path := ROOT // "dependencies".

Definition SUBDIRS : dict path :=
  [ ("osg", SUB // "OpenSceneGraph");
    ("simbody", SUB // "simbody");
    ("opensim", SUB // "opensim3-scone");
    ("scone", ROOT // "scone") ].

Definition DEPSDIRS : dict path :=
  map (fun name => (name, DEPS // name)) (keys SUBDIRS).

Definition APT_PACKAGES : list string :=
  [ "git"; "rsync"; "cmake"; "make"; "gcc"; "g++"; "python3.12-dev";
    "ruby"; "ruby-dev"; "rubygems";
    "libpng-dev"; "zlib1g-dev"; "qtbase5-dev";
    "liblapack-dev";
    "freeglut3-dev"; "libxi-dev"; "libxmu-dev"; "liblapack-dev" ].

Definition newline : string := String "010"%char "".

Definition run (cmd : list string) (cwd : option path) : M unit :=
  print (newline +:+ ">> Running: " +:+ String.concat " " cmd) ;;
  check_call cmd cwd.

Definition ensure_dirs : M unit :=
  mkdir SUB true ;;
  mkdir DEPS true ;;
  for_each (values DEPSDIRS) (fun d => mkdir d true).

Definition install_system_deps : M unit :=
  run ["sudo"; "apt-get"; "update"] None ;;
  run (["sudo"; "apt-get"; "install"; "-y"] ++ APT_PACKAGES) None ;;
  run ["sudo"; "gem"; "install"; "--no-document"; "fpm"] None.

Definition already_built (dep_name : string) : M bool :=
  d <- getitem DEPSDIRS dep_name ;;
  let install_path := d // "install" in
  path_exists install_path.

(** [cmake_cmd += extra_flags] under [if extra_flags:]; [None] and the
    empty list are both falsy. *)
Definition add_flags (cmake_cmd : list string)
    (extra_flags : option (list string)) : list string :=
  match extra_flags with
  | Some (f :: fs) => cmake_cmd ++ f :: fs
  | _ => cmake_cmd
  end.

Definition cmake_configure_and_build (name : string)
    (extra_flags : option (list string)) : M unit :=
  src <- getitem SUBDIRS name ;;
  d <- getitem DEPSDIRS name ;;
  let build := d // "build" in
  d' <- getitem DEPSDIRS name ;;
  let install := d' // "install" in
  there <- path_exists build ;;
  (if there : bool then rmtree build else ret tt) ;;
  mkdir build false ;;
  let cmake_cmd :=
    add_flags
      [ "cmake";
        str_path src;
        "-DCMAKE_BUILD_TYPE=Release";
        "-DCMAKE_INSTALL_PREFIX=" +:+ str_path install;
        "-DCMAKE_POLICY_VERSION_MINIMUM=3.5" ]
      extra_flags in
  run cmake_cmd (Some build) ;;
  run ["cmake"; "--build"; "."; "--parallel"; str_int CORES] (Some build) ;;
  run ["cmake"; "--install"; "."] (Some build).

Definition build_osg (force : bool) : M unit :=
  called "build_osg" (
    built <- already_built "osg" ;;
    if built && negb force then
      print "OSG already built. Use --rebuild to force."
    else
      cmake_configure_and_build "osg"
        (Some ["-DOSG_USE_QT=ON"; "-DDESIRED_QT_VERSION=5"])).

Definition build_simbody (force : bool) : M unit :=
  called "build_simbody" (
    built <- already_built "simbody" ;;
    if built && negb force then
      print "Simbody already built. Use --rebuild to force."
    else
      cmake_configure_and_build "simbody" None).

Definition build_opensim (force : bool) : M unit :=
  called "build_opensim" (
    built <- already_built "opensim" ;;
    if built && negb force then
      print "OpenSim already built. Use --rebuild to force."
    else
      d <- getitem DEPSDIRS "simbody" ;;
      let simbody_home := d // "install" in
      let platform_flags :=
        if String.eqb sys_platform "darwin" then
          [ "-DCMAKE_OSX_DEPLOYMENT_TARGET=10.10";
            "-DCMAKE_CXX_FLAGS=-stdlib=libc++";
            "-DCMAKE_MACOSX_RPATH=TRUE";
            "-DCMAKE_INSTALL_RPATH=@executable_path/../lib";
            "-DBUILD_TESTING=OFF";
            "-DBUILD_API_EXAMPLES=OFF";
            "-DBUILD_API_ONLY=OFF";
            "-DCMAKE_POLICY_VERSION_MINIMUM=3.5" ]
        else
          [ "-DCMAKE_INSTALL_RPATH=$ORIGIN";
            "-DBUILD_TESTING=OFF";
            "-DBUILD_API_EXAMPLES=OFF";
            "-DBUILD_API_ONLY=OFF";
            "-DCMAKE_POLICY_VERSION_MINIMUM=3.5" ] in
      let extra_flags :=
        [ "-DSIMBODY_HOME=" +:+ str_path simbody_home;
          "-DCMAKE_VERBOSE_MAKEFILE=FALSE" ] ++ platform_flags in
      cmake_configure_and_build "opensim" (Some extra_flags)).

Definition build_scone (force : bool) : M unit :=
  called "build_scone" (cmake_configure_and_build "scone" None).

Definition build_all (force : bool) : M unit :=
  build_osg force ;;
  build_simbody force ;;
  build_opensim force ;;
  build_scone force.

(** The [choices] of the positional argument. *)
Definition choices : list string :=
  ["deps"; "osg"; "simbody"; "opensim"; "scone"; "all"].

(** The [if]/[elif] chain of [main]. *)
Definition dispatch (target : string) (rebuild : bool) : M unit :=
  if String.eqb target "deps" then install_system_deps
  else if String.eqb target "osg" then build_osg rebuild
  else if String.eqb target "simbody" then build_simbody rebuild
  else if String.eqb target "opensim" then build_opensim rebuild
  else if String.eqb target "scone" then build_scone rebuild
  else if String.eqb target "all" then build_all rebuild
  else ret tt.

(** [main], from [args = parser.parse_args()] on: [target] and
    [rebuild] are [args.target] and [args.rebuild].  The parser returns
    only with a target among [choices]; what [argparse] does with a
    command line it does not accept, or with [--help], happens before
    and is not part of the embedding. *)
Definition main (target : string) (rebuild : bool) : M unit :=
  ensure_dirs ;;
  dispatch target rebuild.

(** The status the interpreter ends with: 0 when [main] returns, the
    code of a [SystemExit], and 1 after the traceback of any other
    exception that nothing caught.  Nothing in [main] after the parser
    raises a [SystemExit]. *)
Definition exit_status (v : exn + unit) : Z :=
  match v with
  | inr _ => 0
  | inl (SystemExit code) => code
  | inl _ => 1
  end.

End Orchestrator.

Notation "x <- m ;; k" := (bind m (fun x => k))
  (at level 100, m at next level, right associativity).
Notation "m ;; k" := (bind m (fun _ => k))
  (at level 100, right associativity).

Arguments Result {_ A}.
Arguments trace {_ A}.
Arguments final {_ A}.
Arguments value {_ A}.


(** ** Vocabulary of the specification *)

Section Vocabulary.

Context `{Host}.

(** The four dependencies, in the order [SUBDIRS] lists them. *)
Definition dependencies : list string := keys SUBDIRS.

(** The build and install directories of a dependency. *)
Definition build_dir (name : string) : path := DEPS // name // "build".
Definition install_dir (name : string) : path := DEPS // name // "install".

(** The three command lines of a build step. *)
Definition configure_cmd (src : path) (name : string)
    (extra_flags : option (list string)) : list string :=
  add_flags
    [ "cmake"; str_path src; "-DCMAKE_BUILD_TYPE=Release";
      "-DCMAKE_INSTALL_PREFIX=" +:+ str_path (install_dir name);
      "-DCMAKE_POLICY_VERSION_MINIMUM=3.5" ]
    extra_flags.
Definition build_cmd : list string :=
  ["cmake"; "--build"; "."; "--parallel"; str_int (cpu_count / 2)].
Definition install_cmd : list string := ["cmake"; "--install"; "."].

(** What [run] prints, and the two events of a [run] that ends with
    outcome [o]. *)
Definition banner (cmd : list string) : event :=
  Print (newline +:+ ">> Running: " +:+ String.concat " " cmd).
Definition ran (cmd : list string) (cwd : path) (o : outcome) : list event :=
  [banner cmd; Subprocess cmd (Some cwd) o].

(** The full sequence of a build step that is not skipped: reset of the
    build directory ([there] tells whether one was found), configure,
    build, install, with the outcomes of the three child processes. *)
Definition full_sequence (src : path) (name : string)
    (extra_flags : option (list string)) (there : bool)
    (o1 o2 o3 : outcome) : list event :=
  (if there then [Rmtree (build_dir name)] else []) ++
  [Mkdir (build_dir name) false] ++
  ran (configure_cmd src name extra_flags) (build_dir name) o1 ++
  ran build_cmd (build_dir name) o2 ++
  ran install_cmd (build_dir name) o3.

(** The filesystem a reset of the build directory [b] leaves: what was
    below a build directory found there is gone, and [b] is a
    directory. *)
Definition after_reset (fs : fsmap) (b : path) : fsmap :=
  <[b := Dir]>
    (if bool_decide (is_Some (stat fs b))
     then filter (fun e => ¬ (b `prefix_of` e.1)) fs
     else fs).

(** The outcome of the child process that [run] starts in [w]. *)
Definition outcome_of (cmd : list string) (cwd : option path) (w : world)
  : outcome := (system cmd cwd (w_env w) (w_fs w)).1.1.

(** The function that builds a dependency. *)
Definition step (name : string) : string := "build_" +:+ name.

(** What it is for a run [r] of a dependency's step from [w] to perform
    the full sequence with the extra flags [extra]: whatever the
    outcomes, its trace is the beginning of the full sequence, with the
    configure process started in the reset filesystem; the trace is the
    whole sequence when the step returns; and with tools that exit with
    0 the step does return once the reset of the build directory has
    gone through: the only runs that do not return are those that end
    at the [rmtree] or at the [mkdir] of the reset. *)
Definition performs_full_sequence (name : string) (src : path)
    (extra : option (list string)) (w : world) (r : result unit) : Prop :=
  let b := build_dir name in
  let there := bool_decide (is_Some (stat (w_fs w) b)) in
  let o1 := outcome_of (configure_cmd src name extra) (Some b)
              (World (after_reset (w_fs w) b) (w_env w)) in
  (exists o2 o3,
      trace r `prefix_of`
        Call (step name) :: full_sequence src name extra there o1 o2 o3
          ++ [Return (step name)]) /\
  (value r = inr tt ->
   trace r =
     Call (step name) ::
       full_sequence src name extra there (Exited 0) (Exited 0) (Exited 0)
       ++ [Return (step name)]) /\
  ((forall cmd cwd w', outcome_of cmd cwd w' = Exited 0) ->
   value r = inr tt \/
   trace r = [Call (step name); Rmtree b] \/
   trace r =
     Call (step name) :: (if there then [Rmtree b] else [])
       ++ [Mkdir b false]).


(** The child processes a trace invokes, in order. *)
Definition invocations (t : list event) : list (list string * option path) :=
  omap (fun e =>
          match e with
          | Subprocess cmd cwd _ => Some (cmd, cwd)
          | _ => None
          end) t.

(** The entries into and returns from build steps, in order. *)
Definition is_boundary (e : event) : bool :=
  match e with
  | Call _ | Return _ => true
  | _ => false
  end.
Definition boundaries (t : list event) : list event :=
  List.filter is_boundary t.

(** The directories [ensure_dirs] makes, in order. *)
Definition made_dirs : list path := SUB :: DEPS :: values DEPSDIRS.

(** [made_dirs], each split into parent and name. *)
Definition made_dirs_split : list (path * string) :=
  [ (ROOT, "submodules"); (ROOT, "dependencies");
    (DEPS, "osg"); (DEPS, "simbody"); (DEPS, "opensim"); (DEPS, "scone") ].

(** The exception [check_call] raises for an outcome, if any. *)
Definition failure (o : outcome) (cmd : list string) : option exn :=
  match o with
  | Exited rc => if (rc =? 0)%Z then None else Some (CalledProcessError rc cmd)
  | NotStarted => Some (OSError cmd)
  end.

(** A run is fail-fast when a child process that fails is the last
    thing the run does and its exception is what the run ends with, and
    when a [CalledProcessError] the run ends with comes from its last
    effect, a child process that exited with that non-zero code. *)
Definition fail_fast {A} (r : result A) : Prop :=
  (forall cmd cwd o e,
      In (Subprocess cmd cwd o) (trace r) ->
      failure o cmd = Some e ->
      value r = inl e /\ last (trace r) = Some (Subprocess cmd cwd o)) /\
  (forall rc cmd,
      value r = inl (CalledProcessError rc cmd) ->
      rc <> 0%Z /\
      exists cwd, last (trace r) = Some (Subprocess cmd cwd (Exited rc))).

Definition fails_fast {A} (m : M A) : Prop := forall w, fail_fast (m w).

(** What follows a run in the trace: [t] when the run returned,
    nothing when it raised. *)
Definition and_then {A} (r : result A) (t : list event) : list event :=
  match value r with
  | inr _ => t
  | inl _ => []
  end.

(** The entries and returns of a complete run of [build_all]. *)
Definition step_order : list event :=
  [ Call "build_osg"; Return "build_osg";
    Call "build_simbody"; Return "build_simbody";
    Call "build_opensim"; Return "build_opensim";
    Call "build_scone"; Return "build_scone" ].

End Vocabulary.

(** ** Hosts to run the script on *)

Module Examples.

Definition repo : path := ["home"; "dev"; "scone-studio"].

(** Tools that behave: every command exits with 0, and [cmake --install]
    creates the install directory next to the build directory it runs
    in.  With [broken = Some b] every command run in [b] exits with
    [rc] instead. *)
Definition tools (broken : option path) (rc : Z)
    (cmd : list string) (cwd : option path) (env : unit) (fs : fsmap)
  : outcome * unit * fsmap :=
  if bool_decide (is_Some broken) && bool_decide (cwd = broken)
  then (Exited rc, env, fs)
  else
    match cwd with
    | Some b =>
        if bool_decide (cmd = ["cmake"; "--install"; "."])
        then (Exited 0, env, <[parent b // "install" := Dir]> fs)
        else (Exited 0, env, fs)
    | None => (Exited 0, env, fs)
    end.

Definition linux (cpus : Z) (broken : option path) (rc : Z) : Host := {|
  Env := unit;
  system := tools broken rc;
  ROOT := repo;
  cpu_count := cpus;
  sys_platform := "linux"
|}.

Definition macos : Host := {|
  Env := unit;
  system := tools None 0;
  ROOT := repo;
  cpu_count := 8;
  sys_platform := "darwin"
|}.

(** A fresh checkout: only the directories above and including the
    repository root exist. *)
Definition checkout : fsmap :=
  list_to_map [ (["home"], Dir); (["home"; "dev"], Dir); (repo, Dir) ].

(** The checkout with the physics library installed by an earlier run
    and an old file left in its build directory. *)
Definition simbody_installed : fsmap :=
  list_to_map
    [ (["home"], Dir); (["home"; "dev"], Dir); (repo, Dir);
      (repo // "dependencies", Dir);
      (repo // "dependencies" // "simbody", Dir);
      (repo // "dependencies" // "simbody" // "build", Dir);
      (repo // "dependencies" // "simbody" // "build" // "CMakeCache.txt", File);
      (repo // "dependencies" // "simbody" // "install", Dir) ].

(** The checkout with a plain file where the physics library's install
    directory would be. *)
Definition simbody_install_is_a_file : fsmap :=
  list_to_map
    [ (["home"], Dir); (["home"; "dev"], Dir); (repo, Dir);
      (repo // "dependencies", Dir);
      (repo // "dependencies" // "simbody", Dir);
      (repo // "dependencies" // "simbody" // "install", File) ].

(** The world of a host whose tools have no state of their own. *)
Definition on (h : Host) (fs : fsmap) (env : @Env h) : @world h :=
  World fs env.

(** A run in which [cmake] exits with 2 in the build directory of the
    physics library. *)
Definition simbody_build : path :=
  repo // "dependencies" // "simbody" // "build".
Definition broken_simbody : Host := linux 8 (Some simbody_build) 2.
Definition failing_run : @result broken_simbody unit :=
  main "simbody" false (on broken_simbody checkout tt).

(** The checkout with a plain file where the scene-graph library's
    build directory would be. *)
Definition osg_build_is_a_file : fsmap :=
  list_to_map
    [ (["home"], Dir); (["home"; "dev"], Dir); (repo, Dir);
      (repo // "dependencies", Dir);
      (repo // "dependencies" // "osg", Dir);
      (repo // "dependencies" // "osg" // "build", File) ].

(** The checkout with a plain file named [submodules]. *)
Definition submodules_is_a_file : fsmap :=
  list_to_map
    [ (["home"], Dir); (["home"; "dev"], Dir); (repo, Dir);
      (repo // "submodules", File) ].

(** A tree on which the script has run before: the six directories are
    there and the physics library is installed. *)
Definition prepared : fsmap :=
  list_to_map
    [ (["home"], Dir); (["home"; "dev"], Dir); (repo, Dir);
      (repo // "submodules", Dir);
      (repo // "dependencies", Dir);
      (repo // "dependencies" // "osg", Dir);
      (repo // "dependencies" // "simbody", Dir);
      (repo // "dependencies" // "opensim", Dir);
      (repo // "dependencies" // "scone", Dir);
      (repo // "dependencies" // "simbody" // "install", Dir) ].

(** A host whose tools exit with 0 and touch nothing. *)
Definition inert : Host := {|
  Env := unit;
  system := fun _ _ env fs => (Exited 0, env, fs);
  ROOT := repo;
  cpu_count := 4;
  sys_platform := "linux"
|}.

End Examples.

(** ** Vocabulary of the further properties *)

Section Further_vocabulary.

Context `{Host}.

(** The three command lines of [install_system_deps], in order. *)
Definition deps_commands : list (list string) :=
  [ ["sudo"; "apt-get"; "update"];
    ["sudo"; "apt-get"; "install"; "-y"] ++ APT_PACKAGES;
    ["sudo"; "gem"; "install"; "--no-document"; "fpm"] ].



(** A child process that fails is at the last position of the trace. *)
Definition stops_at_failure {A} (r : result A) : Prop :=
  forall i cmd cwd o e,
    trace r !! i = Some (Subprocess cmd cwd o) ->
    failure o cmd = Some e ->
    S i = length (trace r).

Definition always_stops_at_failure {A} (m : M A) : Prop :=
  forall w, stops_at_failure (m w).

(** Every child process in the trace comes right after the line that
    announces its command. *)
Definition announced (t : list event) : Prop :=
  forall i cmd cwd o,
    t !! i = Some (Subprocess cmd cwd o) ->
    exists j, i = S j /\ t !! j = Some (banner cmd).

Definition announces {A} (m : M A) : Prop :=
  forall w, announced (trace (m w)).

(** The tools leave the entry at [p] as it is, and so does [m]. *)
Definition tools_leave (p : path) : Prop :=
  forall cmd cwd env fs, (system cmd cwd env fs).2 !! p = fs !! p.
Definition leaves {A} (p : path) (m : M A) : Prop :=
  forall w, w_fs (final (m w)) !! p = w_fs w !! p.




End Further_vocabulary.

(** ** Facts about the monad and the primitives *)

Section Monad_facts.

Context `{Host}.

Lemma bind_inr {A B} (m : M A) (k : A -> M B) w x :
  value (m w) = inr x ->
  bind m k w =
    Result (trace (m w) ++ trace (k x (final (m w))))
           (final (k x (final (m w)))) (value (k x (final (m w)))).
Proof. intros E. unfold bind. now rewrite E. Qed.

Lemma bind_inl {A B} (m : M A) (k : A -> M B) w e :
  value (m w) = inl e ->
  bind m k w = Result (trace (m w)) (final (m w)) (inl e).
Proof. intros E. unfold bind. now rewrite E. Qed.

Lemma result_eta {A} (r : result A) :
  Result (trace r) (final r) (value r) = r.
Proof. now destruct r. Qed.

Lemma bind_ret {A B} (x : A) (k : A -> M B) w : bind (ret x) k w = k x w.
Proof. unfold bind; simpl. apply result_eta. Qed.

Lemma trace_bind {A B} (m : M A) (k : A -> M B) w :
  trace (bind m k w) =
    trace (m w) ++
    match value (m w) with
    | inr x => trace (k x (final (m w)))
    | inl _ => []
    end.
Proof. unfold bind. destruct (value (m w)); simpl; [now rewrite app_nil_r | done]. Qed.

Lemma value_bind {A B} (m : M A) (k : A -> M B) w :
  value (bind m k w) =
    match value (m w) with
    | inr x => value (k x (final (m w)))
    | inl e => inl e
    end.
Proof. unfold bind. now destruct (value (m w)). Qed.

Lemma final_bind {A B} (m : M A) (k : A -> M B) w :
  final (bind m k w) =
    match value (m w) with
    | inr x => final (k x (final (m w)))
    | inl e => final (m w)
    end.
Proof. unfold bind. now destruct (value (m w)). Qed.

(** [DEPSDIRS] has the keys of [SUBDIRS]. *)
Lemma dict_get_SUBDIRS name src :
  dict_get SUBDIRS name = Some src -> In name dependencies.
Proof.
  unfold dependencies, SUBDIRS; simpl.
  repeat match goal with
         | |- context [String.eqb name ?k] =>
             destruct (String.eqb_spec name k) as [->|_]; [tauto|]
         end.
  intros ?; discriminate.
Qed.

Lemma dict_get_DEPSDIRS name :
  In name dependencies -> dict_get DEPSDIRS name = Some (DEPS // name).
Proof.
  unfold dependencies; simpl.
  intros [<-|[<-|[<-|[<-|[]]]]]; reflexivity.
Qed.

Lemma In_dependencies name :
  In name dependencies ->
  exists src, dict_get SUBDIRS name = Some src.
Proof.
  unfold dependencies; simpl.
  intros [<-|[<-|[<-|[<-|[]]]]]; eexists; reflexivity.
Qed.

Lemma trace_mkdir p e w : trace (mkdir p e w) = [Mkdir p e].
Proof. unfold mkdir. repeat case_match; reflexivity. Qed.

Lemma trace_rmtree p w : trace (rmtree p w) = [Rmtree p].
Proof. unfold rmtree. repeat case_match; reflexivity. Qed.

Lemma trace_run cmd cwd w :
  trace (run cmd cwd w) =
    [banner cmd; Subprocess cmd cwd (outcome_of cmd cwd w)].
Proof. reflexivity. Qed.

Lemma value_run cmd cwd w :
  value (run cmd cwd w) =
    match outcome_of cmd cwd w with
    | Exited rc =>
        if (rc =? 0)%Z then inr tt else inl (CalledProcessError rc cmd)
    | NotStarted => inl (OSError cmd)
    end.
Proof. reflexivity. Qed.

Lemma run_returns cmd cwd w u :
  value (run cmd cwd w) = inr u -> outcome_of cmd cwd w = Exited 0.
Proof.
  rewrite value_run. destruct (outcome_of cmd cwd w) as [rc|]; [|done].
  destruct (Z.eqb_spec rc 0) as [->|]; done.
Qed.

Lemma stat_joinpath fs p x : stat fs (p // x) = fs !! (p // x).
Proof. unfold joinpath. destruct p; reflexivity. Qed.

Lemma rmtree_returns p w u :
  value (rmtree p w) = inr u ->
  final (rmtree p w) =
    World (filter (fun e => ¬ (p `prefix_of` e.1)) (w_fs w)) (w_env w).
Proof. unfold rmtree. repeat case_match; simpl; done. Qed.

Lemma mkdir_new_returns p w u :
  value (mkdir p false w) = inr u ->
  final (mkdir p false w) = World (<[p := Dir]> (w_fs w)) (w_env w).
Proof. unfold mkdir. repeat case_match; simpl; done. Qed.


Lemma lookup_rmtree_beside (fs : fsmap) p q :
  ¬ (p `prefix_of` q) ->
  filter (fun e : path * kind => ¬ (p `prefix_of` e.1)) fs !! q = fs !! q.
Proof.
  intros Hpq. destruct (fs !! q) as [k|] eqn:E.
  - apply map_lookup_filter_Some. now split.
  - apply map_lookup_filter_None. now left.
Qed.

End Monad_facts.

(** ** The shape of a build step *)

Section Build_step.

Context `{Host}.

Lemma cmake_spec name src extra w :
  dict_get SUBDIRS name = Some src ->
  let r := cmake_configure_and_build name extra w in
  let b := build_dir name in
  let there := bool_decide (is_Some (stat (w_fs w) b)) in
  let o1 := outcome_of (configure_cmd src name extra) (Some b)
              (World (after_reset (w_fs w) b) (w_env w)) in
  (exists o2 o3,
      trace r `prefix_of` full_sequence src name extra there o1 o2 o3) /\
  (value r = inr tt ->
   trace r = full_sequence src name extra there (Exited 0) (Exited 0) (Exited 0)
   /\ o1 = Exited 0).
Proof.
  intros Hsrc r b there.
  assert (Hd := dict_get_DEPSDIRS name (dict_get_SUBDIRS _ _ Hsrc)).
  subst r. unfold cmake_configure_and_build, getitem.
  rewrite Hsrc, Hd. rewrite !bind_ret.
  fold (build_dir name). fold (install_dir name).
  fold (configure_cmd src name extra). fold install_cmd.
  change ["cmake"; "--build"; "."; "--parallel"; str_int CORES] with build_cmd.
  fold b.
  set (cfg := configure_cmd src name extra).
  repeat (rewrite ?trace_bind, ?value_bind, ?final_bind;
          cbn [path_exists trace value final]).
  fold there. unfold full_sequence, ran. fold b cfg.
  assert (Hreset : trace ((if there then rmtree b else ret ()) w) =
                   if there then [Rmtree b] else []).
  { destruct there; [apply trace_rmtree | reflexivity]. }
  rewrite Hreset, trace_mkdir, !trace_run.
  assert (Hw1 : forall u u',
    value ((if there then rmtree b else ret ()) w) = inr u ->
    value (mkdir b false (final ((if there then rmtree b else ret ()) w))) = inr u' ->
    final (mkdir b false (final ((if there then rmtree b else ret ()) w))) =
    World (after_reset (w_fs w) b) (w_env w)).
  { intros u u' E1 E2. rewrite (mkdir_new_returns _ _ _ E2).
    unfold after_reset. fold there. destruct there.
    - now rewrite (rmtree_returns _ _ _ E1).
    - reflexivity. }
  destruct (value ((if there then rmtree b else ret ()) w)) as [?|[]] eqn:E1.
  { split; [exists NotStarted, NotStarted|discriminate].
    simpl. apply prefix_app. apply prefix_nil. }
  destruct (value (mkdir b false _)) as [?|[]] eqn:E2.
  { split; [exists NotStarted, NotStarted|discriminate].
    simpl. apply prefix_app. apply prefix_cons, prefix_nil. }
  rewrite (Hw1 () () eq_refl eq_refl). clear Hw1.
  set (w1 := World (after_reset (w_fs w) b) (w_env w)).
  repeat match goal with
         | |- context [match value ?r with _ => _ end] =>
             let E := fresh "E" in
             destruct (value r) as [?|[]] eqn:E;
             [| apply run_returns in E; rewrite ?E]
         end.
  all: split;
    [ do 2 eexists; simpl; apply prefix_app;
      repeat apply prefix_cons; apply prefix_nil
    | try discriminate ].
  intros Ev. apply run_returns in Ev. rewrite Ev. done.
  Unshelve. all: exact NotStarted.
Qed.

(** With tools that exit with 0, the configure and build returns
    unless it ends at the [rmtree] or the [mkdir] of the reset. *)
Lemma cmake_stops_at_reset name src extra w :
  dict_get SUBDIRS name = Some src ->
  (forall cmd cwd w', outcome_of cmd cwd w' = Exited 0) ->
  let r := cmake_configure_and_build name extra w in
  let b := build_dir name in
  let there := bool_decide (is_Some (stat (w_fs w) b)) in
  value r = inr tt \/
  (exists e, value r = inl e /\ trace r = [Rmtree b]) \/
  (exists e, value r = inl e /\
             trace r = (if there then [Rmtree b] else []) ++ [Mkdir b false]).
Proof.
  intros Hsrc Hok r b there.
  assert (Hd := dict_get_DEPSDIRS name (dict_get_SUBDIRS _ _ Hsrc)).
  subst r. unfold cmake_configure_and_build, getitem.
  rewrite Hsrc, Hd. rewrite !bind_ret.
  fold (build_dir name). fold b.
  assert (Hrun : forall cmd cwd w', value (run cmd cwd w') = inr tt).
  { intros. now rewrite value_run, Hok. }
  repeat (rewrite ?trace_bind, ?value_bind, ?final_bind, ?Hrun;
          cbn [path_exists trace value final]).
  fold there. destruct there.
  - rewrite trace_rmtree.
    destruct (value (rmtree b w)) as [e|[]] eqn:E1.
    { right; left. exists e. split; reflexivity. }
    rewrite trace_mkdir.
    destruct (value (mkdir b false _)) as [e|[]] eqn:E2.
    { right; right. exists e. split; reflexivity. }
    left; reflexivity.
  - cbn [ret trace value final]. rewrite trace_mkdir.
    destruct (value (mkdir b false _)) as [e|[]] eqn:E2.
    { right; right. exists e. split; reflexivity. }
    left; reflexivity.
Qed.




Lemma called_eq {A} f (body : M A) w :
  called f body w =
    Result (Call f :: trace (body w) ++
              match value (body w) with
              | inr _ => [Return f]
              | inl _ => []
              end)
           (final (body w)) (value (body w)).
Proof.
  unfold called, bind, emit, ret; simpl.
  destruct (value (body w)); simpl; [now rewrite app_nil_r | reflexivity].
Qed.

Lemma already_built_eq name w :
  In name dependencies ->
  already_built name w =
    Result [] w (inr (bool_decide (is_Some (w_fs w !! install_dir name)))).
Proof.
  intros Hn. unfold already_built, getitem.
  rewrite (dict_get_DEPSDIRS _ Hn), bind_ret. unfold path_exists.
  now rewrite stat_joinpath.
Qed.

(** A step under the cache check: [notice] is printed on a skip,
    [body] runs otherwise. *)
Lemma cached_step_eq f name notice (body : M unit) force w :
  In name dependencies ->
  called f (built <- already_built name ;;
            if built && negb force then print notice else body) w =
    if bool_decide (is_Some (w_fs w !! install_dir name)) && negb force
    then Result [Call f; Print notice; Return f] w (inr tt)
    else called f body w.
Proof.
  intros Hn. rewrite !called_eq.
  unfold bind. rewrite (already_built_eq _ _ Hn). simpl.
  destruct (_ && _); reflexivity.
Qed.

Lemma dispatch_dependency name force :
  In name dependencies ->
  dispatch name force =
    if String.eqb name "osg" then build_osg force
    else if String.eqb name "simbody" then build_simbody force
    else if String.eqb name "opensim" then build_opensim force
    else build_scone force.
Proof.
  unfold dependencies; simpl.
  intros [<-|[<-|[<-|[<-|[]]]]]; unfold dispatch; simpl String.eqb;
    reflexivity.
Qed.

(** Every dependency's step has one shape: a skip under the cache
    check, which the application does not have, or the configure and
    build of that dependency with some extra flags. *)
Lemma step_shape name force w :
  In name dependencies ->
  exists notice extra,
    dispatch name force w =
      if negb (String.eqb name "scone") &&
         bool_decide (is_Some (w_fs w !! install_dir name)) && negb force
      then Result [Call (step name); Print notice; Return (step name)] w (inr tt)
      else called (step name) (cmake_configure_and_build name extra) w.
Proof.
  intros Hn. rewrite (dispatch_dependency _ _ Hn).
  unfold dependencies in Hn; simpl in Hn.
  destruct Hn as [<-|[<-|[<-|[<-|[]]]]]; simpl String.eqb; cbv iota;
    simpl negb; rewrite ?andb_true_l, ?andb_false_l.
  - do 2 eexists. unfold build_osg. apply cached_step_eq. simpl; tauto.
  - do 2 eexists. unfold build_simbody. apply cached_step_eq. simpl; tauto.
  - do 2 eexists. unfold build_opensim.
    etransitivity; [apply cached_step_eq; simpl; tauto|].
    destruct (_ && _); [reflexivity|].
    rewrite !called_eq. unfold getitem.
    rewrite (dict_get_DEPSDIRS "simbody") by (simpl; tauto).
    rewrite bind_ret. reflexivity.
  - exists "", None. reflexivity.
Qed.

Lemma called_cmake_full name src extra w :
  dict_get SUBDIRS name = Some src ->
  performs_full_sequence name src extra w
    (called (step name) (cmake_configure_and_build name extra) w).
Proof.
  intros Hsrc. rewrite called_eq. unfold performs_full_sequence.
  destruct (cmake_spec name src extra w Hsrc) as [(o2 & o3 & Hpre) Hret].
  cbn [trace value]. split; [|split].
  - destruct (value (cmake_configure_and_build name extra w)) as [e|[]] eqn:Ev.
    + exists o2, o3. rewrite app_nil_r. apply prefix_cons.
      now apply prefix_app_r.
    + destruct (Hret eq_refl) as [-> ->]. now exists (Exited 0), (Exited 0).
  - intros Ev. rewrite Ev in *. now destruct (Hret eq_refl) as [-> _].
  - intros Hok.
    destruct (cmake_stops_at_reset name src extra w Hsrc Hok)
      as [Ev|[(e & Ev & Et)|(e & Ev & Et)]]; rewrite Ev, ?Et.
    + now left.
    + right; left. reflexivity.
    + right; right. rewrite app_nil_r. reflexivity.
Qed.


Lemma invocations_prefix t t' :
  t `prefix_of` t' -> invocations t `prefix_of` invocations t'.
Proof.
  intros [k ->]. unfold invocations. rewrite omap_app. now apply prefix_app_r.
Qed.

(** The child processes of a step that performs the full sequence are
    configure, build and install, in the build directory. *)
Lemma full_sequence_invocations name src extra w r :
  performs_full_sequence name src extra w r ->
  let b := Some (build_dir name) in
  let all := [ (configure_cmd src name extra, b); (build_cmd, b);
               (install_cmd, b) ] in
  invocations (trace r) `prefix_of` all /\
  (value r = inr tt -> invocations (trace r) = all).
Proof.
  intros ((o2 & o3 & Hpre) & Hret & _) b all. split.
  - apply invocations_prefix in Hpre. revert Hpre.
    unfold full_sequence. now destruct (bool_decide _).
  - intros Ev. rewrite (Hret Ev).
    unfold full_sequence. now destruct (bool_decide _).
Qed.

Lemma str_path_slash p : exists s, str_path p = String "/" s.
Proof.
  destruct p as [|c [|c' p]]; simpl; eauto.
Qed.

End Build_step.

(** ** The cache check and the skip *)

(** C3. For each of osg, simbody and opensim: when the install directory
    exists and the force flag is not set, the build step starts no child
    process at all; it prints a notice, returns normally and leaves the
    world as it found it. *)
Theorem C3_cached_step_is_skipped `{Host} (name : string) (w : world) :
  In name ["osg"; "simbody"; "opensim"] ->
  stat (w_fs w) (install_dir name) = Some Dir ->
  let r := dispatch name false w in
  invocations (trace r) = [] /\
  value r = inr tt /\
  final r = w /\
  exists notice,
    trace r = [Call (step name); Print notice; Return (step name)].
Proof.
  intros Hn Hi r.
  assert (Hd : In name dependencies) by (simpl in *; tauto).
  destruct (step_shape name false w Hd) as (notice & extra & Hr).
  unfold install_dir in *. rewrite stat_joinpath in Hi.
  rewrite Hi in Hr. rewrite bool_decide_eq_true_2 in Hr by done.
  assert (Hs : String.eqb name "scone" = false).
  { simpl in Hn. destruct Hn as [<-|[<-|[<-|[]]]]; reflexivity. }
  rewrite Hs in Hr. simpl in Hr. subst r. rewrite Hr. simpl.
  repeat split. now exists notice.
Qed.

Lemma C3_witness :
  let h := Examples.linux 8 None 0 in
  let w := Examples.on h Examples.simbody_installed tt in
  let r := dispatch "simbody" false w in
  invocations (trace r) = [] /\
  value r = inr tt /\
  final r = w /\
  exists notice,
    trace r = [Call "build_simbody"; Print notice; Return "build_simbody"].
Proof.
  intros h w.
  apply (C3_cached_step_is_skipped "simbody" w).
  - simpl; tauto.
  - vm_compute; reflexivity.
Defined.

(** C10. The cache check asks only whether something can be found at the
    install path, not whether it is a directory: it answers true exactly
    when the path has an entry of any kind.  So a plain file named
    [install] makes it answer true, and the steps that consult it (all but
    the application's) are then skipped when the force flag is not set. *)
Theorem C10_cache_check_accepts_any_entry `{Host} (name : string) (w : world) :
  In name dependencies ->
  (value (already_built name w) = inr true <->
   is_Some (stat (w_fs w) (install_dir name))) /\
  (stat (w_fs w) (install_dir name) = Some File ->
   value (already_built name w) = inr true /\
   (name <> "scone" ->
    let r := dispatch name false w in
    invocations (trace r) = [] /\ value r = inr tt /\ final r = w)).
Proof.
  intros Hd. rewrite (already_built_eq _ _ Hd). cbn [value].
  unfold install_dir. rewrite stat_joinpath. split.
  - split.
    + intros [= E]. now apply bool_decide_eq_true in E.
    + intros E. now rewrite bool_decide_eq_true_2.
  - intros Hf. rewrite Hf. split; [now rewrite bool_decide_eq_true_2|].
    intros Hs.
    destruct (step_shape name false w Hd) as (notice & extra & Hr).
    unfold install_dir in Hr. rewrite Hf in Hr.
    rewrite bool_decide_eq_true_2 in Hr by done.
    apply String.eqb_neq in Hs. rewrite Hs in Hr. simpl in Hr.
    rewrite Hr. simpl. done.
Qed.

Lemma C10_witness :
  let h := Examples.linux 8 None 0 in
  let w := Examples.on h Examples.simbody_install_is_a_file tt in
  stat (w_fs w) (install_dir "simbody") = Some File /\
  value (already_built "simbody" w) = inr true /\
  let r := dispatch "simbody" false w in
  invocations (trace r) = [] /\ value r = inr tt /\ final r = w.
Proof.
  intros h w.
  assert (Hd : In "simbody" dependencies) by (simpl; tauto).
  assert (Hf : stat (w_fs w) (install_dir "simbody") = Some File)
    by (vm_compute; reflexivity).
  destruct (C10_cache_check_accepts_any_entry "simbody" w Hd) as [_ Hskip].
  destruct (Hskip Hf) as [Hb Hr].
  split; [exact Hf|]. split; [exact Hb|]. apply Hr. discriminate.
Defined.

(** ** The full sequence *)




(** ** Command lines *)

(** C8. The build invocation of a step, its second child process, is
    [cmake --build . --parallel N] in the build directory, where [N] is
    the processor count divided by two, rounded down and passed as it is:
    nothing raises it to 1, so with one processor the degree passed is
    0.  A step that is not skipped and returns has made that
    invocation. *)
Theorem C8_parallel_degree_is_half_the_processors `{Host}
    (name : string) (src : path) (force : bool) (w : world) :
  dict_get SUBDIRS name = Some src ->
  let r := dispatch name force w in
  let degree := str_int (cpu_count / 2) in
  (forall cmd cwd,
      invocations (trace r) !! 1%nat = Some (cmd, cwd) ->
      cmd = ["cmake"; "--build"; "."; "--parallel"; degree] /\
      cwd = Some (build_dir name)) /\
  (stat (w_fs w) (install_dir name) = None \/ force = true ->
   value r = inr tt ->
   invocations (trace r) !! 1%nat =
     Some (["cmake"; "--build"; "."; "--parallel"; degree],
           Some (build_dir name))) /\
  (cpu_count = 1%Z -> degree = "0").
Proof.
  intros Hsrc r degree.
  assert (Hd := dict_get_SUBDIRS _ _ Hsrc).
  destruct (step_shape name force w Hd) as (notice & extra & Hr).
  split; [|split].
  - intros cmd cwd. subst r. rewrite Hr.
    destruct (_ && _ && _); [discriminate|].
    destruct (full_sequence_invocations name src extra w _
                (called_cmake_full name src extra w Hsrc)) as [Hpre _].
    intros Hl. eapply prefix_lookup_Some in Hl; [|exact Hpre].
    now injection Hl as <- <-.
  - intros Hns Ev. subst r. rewrite Hr in *.
    replace (_ && _ && _) with false in *.
    + destruct (full_sequence_invocations name src extra w _
                  (called_cmake_full name src extra w Hsrc)) as [_ Hret].
      now rewrite (Hret Ev).
    + unfold install_dir in *. rewrite stat_joinpath in Hns.
      destruct Hns as [-> | ->]; [|now rewrite andb_false_r].
      rewrite bool_decide_eq_false_2 by (now intros [? ?]).
      now rewrite andb_false_r.
  - intros E. subst degree. now rewrite E.
Qed.

Lemma C8_witness :
  let h := Examples.linux 1 None 0 in
  let w := Examples.on h Examples.simbody_installed tt in
  invocations (trace (dispatch "simbody" true w)) !! 1%nat =
    Some (["cmake"; "--build"; "."; "--parallel"; "0"],
          Some (build_dir "simbody")).
Proof.
  intros h w.
  destruct (C8_parallel_degree_is_half_the_processors
              "simbody" (SUB // "simbody") true w eq_refl) as (_ & Hrun & _).
  apply Hrun.
  - right; reflexivity.
  - vm_compute; reflexivity.
Defined.

(** C6. The configure invocation of the biomechanics library's step, its
    first child process, names the install path of the physics library in
    [SIMBODY_HOME] and turns off the building of tests and of examples.
    On macOS ([sys.platform] is [darwin]) it also carries a deployment
    target, the choice of the standard library and an rpath relative to
    the executable; on any other platform it carries the [$ORIGIN] rpath
    and none of those three. *)
Theorem C6_opensim_configure_flags `{Host}
    (force : bool) (w : world) (cmd : list string) (cwd : option path) :
  invocations (trace (build_opensim force w)) !! 0%nat = Some (cmd, cwd) ->
  let macos_flags :=
    [ "-DCMAKE_OSX_DEPLOYMENT_TARGET=10.10";
      "-DCMAKE_CXX_FLAGS=-stdlib=libc++";
      "-DCMAKE_INSTALL_RPATH=@executable_path/../lib" ] in
  cwd = Some (build_dir "opensim") /\
  In ("-DSIMBODY_HOME=" +:+ str_path (install_dir "simbody")) cmd /\
  In "-DBUILD_TESTING=OFF" cmd /\
  In "-DBUILD_API_EXAMPLES=OFF" cmd /\
  (sys_platform = "darwin" ->
   (forall f, In f macos_flags -> In f cmd) /\
   ~ In "-DCMAKE_INSTALL_RPATH=$ORIGIN" cmd) /\
  (sys_platform <> "darwin" ->
   In "-DCMAKE_INSTALL_RPATH=$ORIGIN" cmd /\
   (forall f, In f macos_flags -> ~ In f cmd)).
Proof.
  unfold build_opensim.
  rewrite cached_step_eq by (simpl; tauto).
  destruct (_ && _); [discriminate|].
  unfold getitem. rewrite (dict_get_DEPSDIRS "simbody") by (simpl; tauto).
  rewrite called_eq. cbn [trace]. rewrite bind_ret.
  match goal with
  | |- context [cmake_configure_and_build "opensim" ?e w] => set (extra := e)
  end.
  destruct (full_sequence_invocations "opensim" (SUB // "opensim3-scone")
              extra w _
              (called_cmake_full "opensim" _ extra w eq_refl)) as [Hpre _].
  rewrite called_eq in Hpre. cbn [trace] in Hpre.
  intros Hl. eapply prefix_lookup_Some in Hl; [|exact Hpre].
  injection Hl as <- <-. clear Hpre.
  destruct (str_path_slash (SUB // "opensim3-scone")) as [s Hs].
  unfold configure_cmd, add_flags. subst extra. rewrite Hs.
  fold (install_dir "simbody").
  cbv zeta.
  destruct (String.eqb_spec sys_platform "darwin") as [Hp|Hp].
  - split; [reflexivity|]. simpl. intuition (subst; try discriminate; tauto).
  - split; [reflexivity|]. simpl. intuition (subst; try discriminate; tauto).
Qed.

Lemma C6_witness :
  let h := Examples.macos in
  let w := Examples.on h Examples.checkout tt in
  let cmd :=
    [ "cmake"; "/home/dev/scone-studio/submodules/opensim3-scone";
      "-DCMAKE_BUILD_TYPE=Release";
      "-DCMAKE_INSTALL_PREFIX=/home/dev/scone-studio/dependencies/opensim/install";
      "-DCMAKE_POLICY_VERSION_MINIMUM=3.5";
      "-DSIMBODY_HOME=/home/dev/scone-studio/dependencies/simbody/install";
      "-DCMAKE_VERBOSE_MAKEFILE=FALSE";
      "-DCMAKE_OSX_DEPLOYMENT_TARGET=10.10";
      "-DCMAKE_CXX_FLAGS=-stdlib=libc++";
      "-DCMAKE_MACOSX_RPATH=TRUE";
      "-DCMAKE_INSTALL_RPATH=@executable_path/../lib";
      "-DBUILD_TESTING=OFF"; "-DBUILD_API_EXAMPLES=OFF";
      "-DBUILD_API_ONLY=OFF"; "-DCMAKE_POLICY_VERSION_MINIMUM=3.5" ] in
  invocations (trace (build_opensim false (final (ensure_dirs w)))) !! 0%nat =
    Some (cmd, Some (build_dir "opensim")) /\
  In ("-DSIMBODY_HOME=" +:+ str_path (install_dir "simbody")) cmd /\
  In "-DBUILD_TESTING=OFF" cmd.
Proof.
  intros h w cmd.
  assert (Hl : invocations (trace (build_opensim false (final (ensure_dirs w))))
               !! 0%nat = Some (cmd, Some (build_dir "opensim")))
    by (vm_compute; reflexivity).
  split; [exact Hl|].
  destruct (C6_opensim_configure_flags false _ _ _ Hl) as (_ & Hhome & Htest & _).
  split; assumption.
Defined.

(** ** The directories made before a target is dispatched *)

Section Ensure_dirs.

Context `{Host}.

(** What a [mkdir(exist_ok=True)] that returns has done. *)
Lemma mkdir_exist_ok_returns (p : path) x w :
  value (mkdir (p // x) true w) = inr tt ->
  let w' := final (mkdir (p // x) true w) in
  w_fs w' !! (p // x) = Some Dir /\
  w_fs w ⊆ w_fs w' /\
  (forall q, q <> p // x -> w_fs w' !! q = w_fs w !! q) /\
  w_env w' = w_env w.
Proof.
  unfold mkdir. rewrite stat_joinpath.
  destruct (w_fs w !! (p // x)) as [[|]|] eqn:E; simpl; [done|done|].
  destruct (stat (w_fs w) (parent (p // x))) as [[|]|]; simpl; [done| |done].
  intros _. split; [apply lookup_insert_eq|].
  split; [now apply insert_subseteq|].
  split; [|done]. intros q Hq. now apply lookup_insert_ne.
Qed.

Lemma stat_weaken (fs fs' : fsmap) q k :
  stat fs q = Some k -> fs ⊆ fs' -> stat fs' q = Some k.
Proof.
  destruct q; [done|]. simpl. intros Hq Hs. eapply lookup_weaken; eauto.
Qed.

Lemma ensure_dirs_for_each :
  ensure_dirs = for_each made_dirs (fun d => mkdir d true).
Proof. reflexivity. Qed.

Lemma for_each_mkdir_returns (ds : list (path * string)) w :
  let mk := for_each (map (fun d => d.1 // d.2) ds) (fun d => mkdir d true) in
  value (mk w) = inr tt ->
  (forall d, In d ds -> w_fs (final (mk w)) !! (d.1 // d.2) = Some Dir) /\
  w_fs w ⊆ w_fs (final (mk w)) /\
  (forall q, ~ In q (map (fun d => d.1 // d.2) ds) ->
             w_fs (final (mk w)) !! q = w_fs w !! q).
Proof.
  revert w. induction ds as [|[p x] ds IH]; intros w mk; subst mk; simpl.
  - intros _. split; [intros ? []|]. split; done.
  - rewrite value_bind, final_bind.
    destruct (value (mkdir (p // x) true w)) as [e|[]] eqn:E; [done|].
    destruct (mkdir_exist_ok_returns p x w E) as (Hp & Hsub & Hother & _).
    intros Ev. destruct (IH _ Ev) as (Hds & Hsub' & Hother').
    split; [|split].
    + intros d [<-|Hd]; [|now apply Hds]. simpl.
      eapply lookup_weaken; [exact Hp|exact Hsub'].
    + now transitivity (w_fs (final (mkdir (p // x) true w))).
    + intros q Hq. rewrite Hother' by tauto. apply Hother. intros ->. tauto.
Qed.

Lemma made_dirs_eq : made_dirs = map (fun d => d.1 // d.2) made_dirs_split.
Proof. reflexivity. Qed.

End Ensure_dirs.

(** C9. Whatever target is chosen, [main] runs [ensure_dirs] first and
    dispatches the target in the world it leaves: there the submodules
    root, the dependencies root and the four per-dependency directories
    all exist as directories, each created if it was absent, nothing else
    added and nothing removed.  A run whose build step is then skipped has
    therefore still changed the filesystem if one of them was missing.
    When a directory cannot be made the run ends with that exception
    and the target is not dispatched at all. *)
Theorem C9_directories_made_before_dispatch `{Host}
    (target : string) (rebuild : bool) (w : world) :
  In target choices ->
  let dirs := [ SUB; DEPS; DEPS // "osg"; DEPS // "simbody";
                DEPS // "opensim"; DEPS // "scone" ] in
  let r0 := ensure_dirs w in
  let r := main target rebuild w in
  (value r0 = inr tt ->
   (forall d, In d dirs -> stat (w_fs (final r0)) d = Some Dir) /\
   w_fs w ⊆ w_fs (final r0) /\
   (forall q, ~ In q dirs -> stat (w_fs (final r0)) q = stat (w_fs w) q) /\
   ((exists d, In d dirs /\ stat (w_fs w) d = None) ->
    w_fs (final r0) <> w_fs w) /\
   let rd := dispatch target rebuild (final r0) in
   r = Result (trace r0 ++ trace rd) (final rd) (value rd)) /\
  (forall e, value r0 = inl e -> r = Result (trace r0) (final r0) (inl e)).
Proof.
  intros Ht dirs r0 r.
  assert (Hmain : r = bind ensure_dirs (fun _ => dispatch target rebuild) w)
    by reflexivity.
  split.
  - intros E0.
    assert (E0' := E0). subst r0. rewrite ensure_dirs_for_each, made_dirs_eq in E0'.
    destruct (for_each_mkdir_returns made_dirs_split w E0')
      as (Hd & Hsub & Hother).
    rewrite <- made_dirs_eq, <- ensure_dirs_for_each in Hd, Hsub, Hother.
    assert (Hdirs : forall d, In d dirs ->
                      stat (w_fs (final (ensure_dirs w))) d = Some Dir).
    { intros d Hin. change dirs with made_dirs in Hin.
      rewrite made_dirs_eq in Hin.
      apply in_map_iff in Hin as ([p x] & <- & Hin). simpl.
      rewrite stat_joinpath. now apply (Hd (p, x)). }
    split; [exact Hdirs|]. split; [exact Hsub|]. split; [|split].
    + intros q Hq. destruct q as [|c q]; [done|]. simpl. now apply Hother.
    + intros (d & Hin & Habs) Heq. specialize (Hdirs d Hin).
      rewrite Heq in Hdirs. congruence.
    + intros rd. rewrite Hmain. exact (bind_inr ensure_dirs _ w tt E0).
  - intros e E0. rewrite Hmain. exact (bind_inl ensure_dirs _ w e E0).
Qed.

Lemma C9_witness :
  let h := Examples.linux 8 None 0 in
  let w := Examples.on h Examples.simbody_installed tt in
  let r := main "simbody" false w in
  invocations (trace r) = [] /\
  stat (w_fs w) SUB = None /\
  stat (w_fs (final (ensure_dirs w))) SUB = Some Dir /\
  w_fs (final (ensure_dirs w)) <> w_fs w /\
  r = Result (trace (ensure_dirs w)
               ++ trace (dispatch "simbody" false (final (ensure_dirs w))))
             (final (dispatch "simbody" false (final (ensure_dirs w))))
             (value (dispatch "simbody" false (final (ensure_dirs w)))).
Proof.
  intros h w r.
  assert (Ht : In "simbody" choices) by (simpl; tauto).
  assert (Habs : stat (w_fs w) SUB = None) by (vm_compute; reflexivity).
  destruct (C9_directories_made_before_dispatch "simbody" false w Ht)
    as (Hok & _).
  assert (E0 : value (ensure_dirs w) = inr tt) by (vm_compute; reflexivity).
  destruct (Hok E0) as (Hdirs & _ & _ & Hchg & Hrun).
  split; [vm_compute; reflexivity|]. split; [exact Habs|].
  split; [apply Hdirs; simpl; tauto|].
  split; [apply Hchg; exists SUB; split; [simpl; tauto|exact Habs]|].
  exact Hrun.
Defined.

(** ** Failures of child processes *)

Section Fail_fast.

Context `{Host}.

Lemma ff_bind {A B} (m : M A) (k : A -> M B) :
  fails_fast m -> (forall x, fails_fast (k x)) -> fails_fast (bind m k).
Proof.
  intros Hm Hk w. destruct (Hm w) as [Hm1 Hm2].
  destruct (value (m w)) as [e|x] eqn:E.
  - rewrite (bind_inl _ _ _ _ E). split; cbn [trace value].
    + intros cmd cwd o e' Hin Hf. destruct (Hm1 _ _ _ _ Hin Hf). split; congruence.
    + intros rc cmd [= ->]. now apply Hm2.
  - rewrite (bind_inr _ _ _ _ E). destruct (Hk x (final (m w))) as [Hk1 Hk2].
    split; cbn [trace value].
    + intros cmd cwd o e Hin Hf. apply in_app_or in Hin as [Hin|Hin].
      * destruct (Hm1 _ _ _ _ Hin Hf). congruence.
      * destruct (Hk1 _ _ _ _ Hin Hf) as [Hv Hl]. split; [done|].
        rewrite last_app, Hl. done.
    + intros rc cmd Hv. destruct (Hk2 _ _ Hv) as (Hrc & cwd & Hl).
      split; [done|]. exists cwd. rewrite last_app, Hl. done.
Qed.

(** A run without child processes that does not end with a
    [CalledProcessError] is fail-fast. *)
Lemma ff_quiet {A} (r : result A) :
  (forall cmd cwd o, ~ In (Subprocess cmd cwd o) (trace r)) ->
  (forall rc cmd, value r <> inl (CalledProcessError rc cmd)) ->
  fail_fast r.
Proof.
  intros Ht Hv. split.
  - intros cmd cwd o e Hin. now apply Ht in Hin.
  - intros rc cmd E. now apply Hv in E.
Qed.

Lemma ff_ret {A} (x : A) : fails_fast (ret x).
Proof. intros w. apply ff_quiet; simpl; intros; [tauto|discriminate]. Qed.

Lemma ff_print s : fails_fast (print s).
Proof.
  intros w. apply ff_quiet; simpl; intros; [|discriminate].
  intros [?|[]]; discriminate.
Qed.

Lemma ff_path_exists p : fails_fast (path_exists p).
Proof. intros w. apply ff_quiet; simpl; intros; [tauto|discriminate]. Qed.

Lemma ff_mkdir p e : fails_fast (mkdir p e).
Proof.
  intros w. apply ff_quiet.
  - intros cmd cwd o. rewrite trace_mkdir. intros [?|[]]; discriminate.
  - intros rc cmd. unfold mkdir. repeat case_match; simpl; discriminate.
Qed.

Lemma ff_rmtree p : fails_fast (rmtree p).
Proof.
  intros w. apply ff_quiet.
  - intros cmd cwd o. rewrite trace_rmtree. intros [?|[]]; discriminate.
  - intros rc cmd. unfold rmtree. repeat case_match; simpl; discriminate.
Qed.

Lemma ff_getitem {V} (d : dict V) k : fails_fast (getitem d k).
Proof.
  intros w. unfold getitem. destruct (dict_get d k);
    apply ff_quiet; simpl; intros; try tauto; discriminate.
Qed.

Lemma ff_check_call cmd cwd : fails_fast (check_call cmd cwd).
Proof.
  intros w. unfold check_call. cbv zeta.
  set (o := (system cmd cwd (w_env w) (w_fs w)).1.1). split; cbn [trace value].
  - intros cmd' cwd' o' e [[= <- <- <-]|[]] Hf. split; [|reflexivity].
    unfold failure in Hf. destruct o as [rc|]; [|congruence].
    destruct (rc =? 0)%Z; congruence.
  - intros rc cmd' Hv. destruct o as [rc'|]; [|discriminate].
    destruct (Z.eqb_spec rc' 0); [discriminate|].
    injection Hv as <- <-. split; [done|]. now exists cwd.
Qed.

Lemma ff_run cmd cwd : fails_fast (run cmd cwd).
Proof. apply ff_bind; [apply ff_print|intros _; apply ff_check_call]. Qed.

Lemma ff_called {A} f (body : M A) : fails_fast body -> fails_fast (called f body).
Proof.
  intros Hb. unfold called.
  assert (He : forall e, (forall cmd cwd o, e <> Subprocess cmd cwd o) ->
                         fails_fast (emit e)).
  { intros e He w. apply ff_quiet; simpl; intros; [|discriminate].
    intros [?|[]]. eapply He; eauto. }
  apply ff_bind; [now apply He|intros _].
  apply ff_bind; [done|intros x].
  apply ff_bind; [now apply He|intros _; apply ff_ret].
Qed.

Lemma ff_for_each {A} (xs : list A) (body : A -> M unit) :
  (forall x, fails_fast (body x)) -> fails_fast (for_each xs body).
Proof.
  intros Hb. induction xs as [|x xs IH]; simpl; [apply ff_ret|].
  apply ff_bind; [apply Hb|intros _; apply IH].
Qed.

Ltac ff :=
  repeat match goal with
         | |- forall _, _ => intros ?
         | |- fails_fast (if ?b then _ else _) => destruct b
         | |- fails_fast (run _ _) => apply ff_run
         | |- fails_fast (called _ _) => apply ff_called
         | |- fails_fast (for_each _ _) => apply ff_for_each
         | |- fails_fast (bind _ _) => apply ff_bind
         | |- fails_fast _ =>
             first [ apply ff_ret | apply ff_print | apply ff_path_exists
                   | apply ff_mkdir | apply ff_rmtree | apply ff_getitem ]
         end.

Lemma ff_cmake name extra : fails_fast (cmake_configure_and_build name extra).
Proof. unfold cmake_configure_and_build. ff. Qed.

Lemma ff_build_osg force : fails_fast (build_osg force).
Proof. unfold build_osg. ff; apply ff_cmake. Qed.

Lemma ff_build_simbody force : fails_fast (build_simbody force).
Proof. unfold build_simbody. ff; apply ff_cmake. Qed.

Lemma ff_build_opensim force : fails_fast (build_opensim force).
Proof. unfold build_opensim. ff; apply ff_cmake. Qed.

Lemma ff_build_scone force : fails_fast (build_scone force).
Proof. unfold build_scone. ff; apply ff_cmake. Qed.

Lemma ff_build_all force : fails_fast (build_all force).
Proof.
  unfold build_all.
  apply ff_bind; [apply ff_build_osg|intros _].
  apply ff_bind; [apply ff_build_simbody|intros _].
  apply ff_bind; [apply ff_build_opensim|intros _; apply ff_build_scone].
Qed.

Lemma ff_install_system_deps : fails_fast install_system_deps.
Proof. unfold install_system_deps. ff. Qed.

Lemma ff_ensure_dirs : fails_fast ensure_dirs.
Proof. unfold ensure_dirs. ff. Qed.

Lemma ff_dispatch target rebuild : fails_fast (dispatch target rebuild).
Proof.
  unfold dispatch.
  destruct (String.eqb target "deps"); [exact ff_install_system_deps|].
  destruct (String.eqb target "osg"); [exact (ff_build_osg _)|].
  destruct (String.eqb target "simbody"); [exact (ff_build_simbody _)|].
  destruct (String.eqb target "opensim"); [exact (ff_build_opensim _)|].
  destruct (String.eqb target "scone"); [exact (ff_build_scone _)|].
  destruct (String.eqb target "all"); [exact (ff_build_all _)|].
  exact (ff_ret tt).
Qed.

Lemma ff_main target rebuild : fails_fast (main target rebuild).
Proof.
  unfold main. apply ff_bind; [apply ff_ensure_dirs|intros _; apply ff_dispatch].
Qed.

End Fail_fast.

(** ** The order of the steps *)

Section Step_order.

Context `{Host}.

Lemma boundaries_app t1 t2 :
  boundaries (t1 ++ t2) = boundaries t1 ++ boundaries t2.
Proof. apply List.filter_app. Qed.

Lemma boundaries_prefix_nil t t' :
  t `prefix_of` t' -> boundaries t' = [] -> boundaries t = [].
Proof.
  intros [k ->]. rewrite boundaries_app. intros E.
  now apply app_eq_nil in E.
Qed.

Lemma cmake_boundaries name extra w :
  In name dependencies ->
  boundaries (trace (cmake_configure_and_build name extra w)) = [].
Proof.
  intros Hn. destruct (In_dependencies _ Hn) as [src Hsrc].
  destruct (cmake_spec name src extra w Hsrc) as [(o2 & o3 & Hpre) _].
  eapply boundaries_prefix_nil; [exact Hpre|].
  unfold full_sequence. now destruct (bool_decide _).
Qed.

(** A step enters, and returns unless it fails. *)
Lemma step_boundaries name force w :
  In name dependencies ->
  let r := dispatch name force w in
  boundaries (trace r) =
    Call (step name) ::
      match value r with
      | inr _ => [Return (step name)]
      | inl _ => []
      end.
Proof.
  intros Hn r. subst r.
  destruct (step_shape name force w Hn) as (notice & extra & ->).
  destruct (_ && _ && _); [reflexivity|].
  rewrite called_eq. cbn [trace value]. simpl boundaries.
  rewrite boundaries_app, (cmake_boundaries _ _ _ Hn).
  now destruct (value _).
Qed.

Lemma ensure_dirs_boundaries w : boundaries (trace (ensure_dirs w)) = [].
Proof.
  rewrite ensure_dirs_for_each. generalize made_dirs. intros ds. revert w.
  induction ds as [|d ds IH]; intros w; [reflexivity|]. simpl for_each.
  rewrite trace_bind, boundaries_app, trace_mkdir.
  destruct (value _); [reflexivity|apply IH].
Qed.

(** The child processes of a step run in its build directory. *)
Lemma step_invocations_cwd name force w cmd cwd o :
  In name dependencies ->
  In (Subprocess cmd cwd o) (trace (dispatch name force w)) ->
  cwd = Some (build_dir name).
Proof.
  intros Hn. destruct (In_dependencies _ Hn) as [src Hsrc].
  destruct (step_shape name force w Hn) as (notice & extra & ->).
  destruct (_ && _ && _).
  - simpl. intros [?|[?|[?|[]]]]; discriminate.
  - destruct (called_cmake_full name src extra w Hsrc)
      as [(o2 & o3 & [k Hpre]) _].
    intros Hin.
    assert (Hin' : In (Subprocess cmd cwd o)
              (Call (step name) :: full_sequence src name extra
                 (bool_decide (is_Some (stat (w_fs w) (build_dir name))))
                 (outcome_of (configure_cmd src name extra)
                    (Some (build_dir name))
                    (World (after_reset (w_fs w) (build_dir name)) (w_env w)))
                 o2 o3 ++ [Return (step name)])).
    { rewrite Hpre. apply in_or_app. now left. }
    revert Hin'. unfold full_sequence, ran, banner.
    destruct (bool_decide _); simpl; intuition congruence.
Qed.

Lemma build_steps_are_dispatched force :
  build_osg force = dispatch "osg" force /\
  build_simbody force = dispatch "simbody" force /\
  build_opensim force = dispatch "opensim" force /\
  build_scone force = dispatch "scone" force.
Proof. unfold dispatch; simpl String.eqb. repeat split. Qed.

End Step_order.

Section Build_all.

Context `{Host}.

Lemma main_all rebuild w :
  main "all" rebuild w = bind ensure_dirs (fun _ => build_all rebuild) w.
Proof.
  unfold main, dispatch. simpl String.eqb. cbv iota. reflexivity.
Qed.

Lemma trace_seq {A B} (m : M A) (k : M B) w :
  trace (bind m (fun _ => k) w) =
    trace (m w) ++ and_then (m w) (trace (k (final (m w)))).
Proof. rewrite trace_bind. reflexivity. Qed.

Lemma In_boundaries e t :
  is_boundary e = true -> In e t <-> In e (boundaries t).
Proof. intros He. unfold boundaries. rewrite List.filter_In. tauto. Qed.

Lemma step_begins_with_its_call name force w :
  In name dependencies ->
  exists t, trace (dispatch name force w) = Call (step name) :: t.
Proof.
  intros Hn. destruct (step_shape name force w Hn) as (notice & extra & ->).
  destruct (_ && _ && _); [now eexists|].
  rewrite called_eq. now eexists.
Qed.

End Build_all.

(** C1. A run with target [all] is the run of [ensure_dirs] followed by
    the runs of the four build steps in the order osg, simbody, opensim,
    scone, each started in the world the one before it left and only if
    that one returned: the trace is theirs, one after the other and cut
    short at the first that raises; the run returns exactly when all of
    them do; each step's part begins with its entry, so that a step is
    entered exactly when everything before it has returned; and the
    entries and returns in the trace are a beginning of [step_order],
    all of it when the run completes. *)
Theorem C1_steps_in_fixed_order `{Host} (rebuild : bool) (w : world) :
  let r := main "all" rebuild w in
  let r0 := ensure_dirs w in
  let r1 := build_osg rebuild (final r0) in
  let r2 := build_simbody rebuild (final r1) in
  let r3 := build_opensim rebuild (final r2) in
  let r4 := build_scone rebuild (final r3) in
  trace r =
    trace r0 ++ and_then r0 (
      trace r1 ++ and_then r1 (
        trace r2 ++ and_then r2 (
          trace r3 ++ and_then r3 (trace r4)))) /\
  (value r = inr tt <->
   value r0 = inr tt /\ value r1 = inr tt /\ value r2 = inr tt /\
   value r3 = inr tt /\ value r4 = inr tt) /\
  (exists t1 t2 t3 t4,
      trace r1 = Call "build_osg" :: t1 /\
      trace r2 = Call "build_simbody" :: t2 /\
      trace r3 = Call "build_opensim" :: t3 /\
      trace r4 = Call "build_scone" :: t4) /\
  (In (Call "build_osg") (trace r) <-> value r0 = inr tt) /\
  (In (Call "build_simbody") (trace r) <->
   value r0 = inr tt /\ value r1 = inr tt) /\
  (In (Call "build_opensim") (trace r) <->
   value r0 = inr tt /\ value r1 = inr tt /\ value r2 = inr tt) /\
  (In (Call "build_scone") (trace r) <->
   value r0 = inr tt /\ value r1 = inr tt /\ value r2 = inr tt /\
   value r3 = inr tt) /\
  boundaries (trace r) `prefix_of` step_order /\
  (value r = inr tt -> boundaries (trace r) = step_order).
Proof.
  intros r r0 r1 r2 r3 r4.
  destruct (build_steps_are_dispatched rebuild) as (E1 & E2 & E3 & E4).
  assert (I1 : In "osg" dependencies) by (simpl; tauto).
  assert (I2 : In "simbody" dependencies) by (simpl; tauto).
  assert (I3 : In "opensim" dependencies) by (simpl; tauto).
  assert (I4 : In "scone" dependencies) by (simpl; tauto).
  assert (Ht : trace r =
    trace r0 ++ and_then r0 (
      trace r1 ++ and_then r1 (
        trace r2 ++ and_then r2 (
          trace r3 ++ and_then r3 (trace r4))))).
  { subst r. rewrite main_all. unfold build_all. rewrite !trace_seq.
    reflexivity. }
  assert (Hv : value r =
    match value r0 with
    | inl e => inl e
    | inr _ =>
        match value r1 with
        | inl e => inl e
        | inr _ =>
            match value r2 with
            | inl e => inl e
            | inr _ =>
                match value r3 with
                | inl e => inl e
                | inr _ => value r4
                end
            end
        end
    end).
  { subst r. rewrite main_all. unfold build_all.
    unfold r4, r3, r2, r1, r0.
    repeat (rewrite ?value_bind, ?final_bind).
    destruct (value (ensure_dirs w)); [reflexivity|].
    repeat (rewrite ?value_bind, ?final_bind).
    destruct (value (build_osg rebuild _)); [reflexivity|].
    repeat (rewrite ?value_bind, ?final_bind).
    destruct (value (build_simbody rebuild _)); [reflexivity|].
    repeat (rewrite ?value_bind, ?final_bind).
    destruct (value (build_opensim rebuild _)); reflexivity. }
  assert (B0 : boundaries (trace r0) = []) by apply ensure_dirs_boundaries.
  assert (B1 := step_boundaries "osg" rebuild (final r0) I1).
  assert (B2 := step_boundaries "simbody" rebuild (final r1) I2).
  assert (B3 := step_boundaries "opensim" rebuild (final r2) I3).
  assert (B4 := step_boundaries "scone" rebuild (final r3) I4).
  assert (C1 := step_begins_with_its_call "osg" rebuild (final r0) I1).
  assert (C2 := step_begins_with_its_call "simbody" rebuild (final r1) I2).
  assert (C3 := step_begins_with_its_call "opensim" rebuild (final r2) I3).
  assert (C4 := step_begins_with_its_call "scone" rebuild (final r3) I4).
  cbv zeta in B1, B2, B3, B4.
  rewrite <- E1 in B1, C1. rewrite <- E2 in B2, C2.
  rewrite <- E3 in B3, C3. rewrite <- E4 in B4, C4.
  change (step "osg") with "build_osg" in B1, C1.
  change (step "simbody") with "build_simbody" in B2, C2.
  change (step "opensim") with "build_opensim" in B3, C3.
  change (step "scone") with "build_scone" in B4, C4.
  fold r1 in B1, C1. fold r2 in B2, C2. fold r3 in B3, C3. fold r4 in B4, C4.
  clear E1 E2 E3 E4 I1 I2 I3 I4.
  destruct C1 as [t1 C1], C2 as [t2 C2], C3 as [t3 C3], C4 as [t4 C4].
  clearbody r r0 r1 r2 r3 r4.
  split; [exact Ht|].
  split; [|split; [exists t1, t2, t3, t4; repeat split; assumption|]].
  { rewrite Hv. clear.
    destruct (value r0) as [?|[]]; [intuition discriminate|].
    destruct (value r1) as [?|[]]; [intuition discriminate|].
    destruct (value r2) as [?|[]]; [intuition discriminate|].
    destruct (value r3) as [?|[]]; [intuition discriminate|].
    tauto. }
  clear C1 C2 C3 C4 t1 t2 t3 t4.
  rewrite (In_boundaries (Call "build_osg") (trace r)) by reflexivity.
  rewrite (In_boundaries (Call "build_simbody") (trace r)) by reflexivity.
  rewrite (In_boundaries (Call "build_opensim") (trace r)) by reflexivity.
  rewrite (In_boundaries (Call "build_scone") (trace r)) by reflexivity.
  rewrite Hv, Ht. unfold and_then. clear Ht Hv.
  destruct (value r0) as [?|[]].
  { rewrite app_nil_r, B0.
    repeat split; try apply prefix_nil; intros; simpl in *;
      intuition (try discriminate; try congruence). }
  rewrite boundaries_app, B0. simpl app.
  destruct (value r1) as [?|[]].
  { rewrite app_nil_r, B1.
    repeat split; try (now exists (tl step_order)); intros;
      simpl in *; intuition (try discriminate; try congruence). }
  rewrite boundaries_app, B1.
  destruct (value r2) as [?|[]].
  { rewrite app_nil_r, B2.
    repeat split; try (now exists (drop 3 step_order)); intros;
      simpl in *; intuition (try discriminate; try congruence). }
  rewrite boundaries_app, B2.
  destruct (value r3) as [?|[]].
  { rewrite app_nil_r, B3.
    repeat split; try (now exists (drop 5 step_order)); intros;
      simpl in *; intuition (try discriminate; try congruence). }
  rewrite boundaries_app, B3, B4.
  destruct (value r4) as [?|[]].
  { repeat split; try (now exists (drop 7 step_order)); intros;
      simpl in *; intuition (try discriminate; try congruence). }
  repeat split; try (now exists []); intros; simpl in *;
    intuition (try discriminate; try congruence).
Qed.

(** A complete run from a fresh checkout: every step is entered and
    returns, the four install directories are there afterwards and the
    process ends with status 0. *)
Example complete_run_from_checkout :
  let h := Examples.linux 8 None 0 in
  let r := main "all" false (Examples.on h Examples.checkout tt) in
  boundaries (trace r) = step_order /\
  exit_status (value r) = 0%Z /\
  Forall (fun name => stat (w_fs (final r)) (install_dir name) = Some Dir)
         dependencies.
Proof.
  cbv zeta. split; [vm_compute; reflexivity|].
  split; [vm_compute; reflexivity|].
  repeat constructor; vm_compute; reflexivity.
Qed.

(** C2. In a run of [build_all] in which the osg step returns and the
    simbody step then fails on a child process that exits with a code
    other than 0, the run ends there with that exception: the failing
    process is the last thing done, so the opensim and scone steps are
    never entered and no child process runs outside the build directories
    of osg and simbody; and the world is left as the failing process left
    it, with everything the completed steps did still done. *)
Theorem C2_fail_fast_without_rollback `{Host}
    (force : bool) (w : world) (rc : Z) (cmd : list string) :
  let r1 := build_osg force w in
  let r2 := build_simbody force (final r1) in
  let r := build_all force w in
  value r1 = inr tt ->
  value r2 = inl (CalledProcessError rc cmd) ->
  rc <> 0%Z /\
  value r = inl (CalledProcessError rc cmd) /\
  trace r = trace r1 ++ trace r2 /\
  last (trace r) =
    Some (Subprocess cmd (Some (build_dir "simbody")) (Exited rc)) /\
  final r = final r2 /\
  boundaries (trace r) =
    [Call "build_osg"; Return "build_osg"; Call "build_simbody"] /\
  ~ In (Call "build_opensim") (trace r) /\
  ~ In (Call "build_scone") (trace r) /\
  (forall cmd' cwd o,
      In (Subprocess cmd' cwd o) (trace r) ->
      cwd = Some (build_dir "osg") \/ cwd = Some (build_dir "simbody")).
Proof.
  intros r1 r2 r E1 E2.
  assert (Hr : r = Result (trace r1 ++ trace r2) (final r2)
                     (inl (CalledProcessError rc cmd))).
  { subst r. unfold build_all. rewrite (bind_inr _ _ _ _ E1).
    fold r1. rewrite (bind_inl _ _ _ _ E2). reflexivity. }
  destruct (build_steps_are_dispatched force) as (D1 & D2 & _).
  assert (Hcwd : forall cmd' cwd o,
             In (Subprocess cmd' cwd o) (trace r) ->
             cwd = Some (build_dir "osg") \/ cwd = Some (build_dir "simbody")).
  { intros cmd' cwd o. rewrite Hr. cbn [trace]. intros Hin.
    apply in_app_or in Hin as [Hin|Hin].
    - left. subst r1. rewrite D1 in Hin.
      eapply step_invocations_cwd; [|exact Hin]. simpl; tauto.
    - right. subst r2. rewrite D2 in Hin.
      eapply step_invocations_cwd; [|exact Hin]. simpl; tauto. }
  destruct (ff_build_simbody force (final r1)) as [_ Hff].
  destruct (Hff rc cmd E2) as (Hrc & cwd & Hlast).
  change (last (trace r2) = Some (Subprocess cmd cwd (Exited rc))) in Hlast.
  assert (Hc : cwd = Some (build_dir "simbody")).
  { destruct (proj1 (last_Some _ _) Hlast) as [t2 Ht2].
    apply (step_invocations_cwd "simbody" force (final r1) cmd cwd (Exited rc));
      [simpl; tauto|].
    rewrite <- D2. fold r2. rewrite Ht2. apply in_or_app. simpl. tauto. }
  subst cwd.
  assert (Hl : last (trace r) =
               Some (Subprocess cmd (Some (build_dir "simbody")) (Exited rc))).
  { rewrite Hr. cbn [trace]. rewrite last_app. now rewrite Hlast. }
  assert (Hb : boundaries (trace r) =
               [Call "build_osg"; Return "build_osg"; Call "build_simbody"]).
  { rewrite Hr. cbn [trace]. rewrite boundaries_app.
    subst r1 r2. rewrite D1, D2 in *.
    rewrite !step_boundaries by (simpl; tauto). now rewrite E1, E2. }
  assert (Hnot : forall f, In (Call f) (trace r) ->
                           f = "build_osg" \/ f = "build_simbody").
  { intros f Hin.
    assert (Hin' : In (Call f) (boundaries (trace r))).
    { apply List.filter_In. now split. }
    rewrite Hb in Hin'. simpl in Hin'.
    destruct Hin' as [[= <-]|[?|[[= <-]|[]]]]; try discriminate; tauto. }
  split; [exact Hrc|]. split; [now rewrite Hr|]. split; [now rewrite Hr|].
  split; [exact Hl|].
  split; [now rewrite Hr|]. split; [exact Hb|].
  split; [intros Hin; apply Hnot in Hin as [?|?]; discriminate|].
  split; [intros Hin; apply Hnot in Hin as [?|?]; discriminate|].
  exact Hcwd.
Qed.

Lemma C2_witness :
  let b := Examples.repo // "dependencies" // "simbody" // "build" in
  let h := Examples.linux 8 (Some b) 2 in
  let w := final (ensure_dirs (Examples.on h Examples.checkout tt)) in
  let cmd :=
    [ "cmake"; "/home/dev/scone-studio/submodules/simbody";
      "-DCMAKE_BUILD_TYPE=Release";
      "-DCMAKE_INSTALL_PREFIX=/home/dev/scone-studio/dependencies/simbody/install";
      "-DCMAKE_POLICY_VERSION_MINIMUM=3.5" ] in
  let r := build_all false w in
  value r = inl (CalledProcessError 2 cmd) /\
  last (trace r) = Some (Subprocess cmd (Some b) (Exited 2)) /\
  ~ In (Call "build_opensim") (trace r) /\
  ~ In (Call "build_scone") (trace r) /\
  stat (w_fs (final r)) (install_dir "osg") = Some Dir.
Proof.
  intros b h w cmd r.
  assert (E1 : value (build_osg false w) = inr tt) by (vm_compute; reflexivity).
  assert (E2 : value (build_simbody false (final (build_osg false w))) =
               inl (CalledProcessError 2 cmd)) by (vm_compute; reflexivity).
  destruct (C2_fail_fast_without_rollback false w 2 cmd E1 E2)
    as (_ & Hv & _ & Hl & _ & _ & Ho & Hs & _).
  split; [exact Hv|]. split; [exact Hl|]. split; [exact Ho|].
  split; [exact Hs|]. vm_compute; reflexivity.
Defined.

(** ** The exit status *)

(** C7, as the code has it. When a child process [main] has started
    exits with a code other than 0, the run stops there with the
    [CalledProcessError] that carries that code, which nothing catches: the
    interpreter ends with status 1, which is not 0, whatever the code of
    the child was. *)
Theorem C7_failure_exits_with_status_1 `{Host}
    (target : string) (rebuild : bool) (w : world)
    (cmd : list string) (cwd : option path) (rc : Z) :
  let r := main target rebuild w in
  In (Subprocess cmd cwd (Exited rc)) (trace r) ->
  rc <> 0%Z ->
  value r = inl (CalledProcessError rc cmd) /\
  last (trace r) = Some (Subprocess cmd cwd (Exited rc)) /\
  exit_status (value r) = 1%Z /\
  exit_status (value r) <> 0%Z.
Proof.
  intros r Hin Hrc. destruct (ff_main target rebuild w) as [Hff _].
  assert (Hf : failure (Exited rc) cmd = Some (CalledProcessError rc cmd)).
  { unfold failure. now destruct (Z.eqb_spec rc 0). }
  destruct (Hff _ _ _ _ Hin Hf) as [Hv Hl]. fold r in Hv, Hl.
  rewrite Hv. repeat split; done.
Qed.

Lemma C7_counterexample :
  let cmd :=
    [ "cmake"; "/home/dev/scone-studio/submodules/simbody";
      "-DCMAKE_BUILD_TYPE=Release";
      "-DCMAKE_INSTALL_PREFIX=/home/dev/scone-studio/dependencies/simbody/install";
      "-DCMAKE_POLICY_VERSION_MINIMUM=3.5" ] in
  let r := Examples.failing_run in
  In (Subprocess cmd (Some Examples.simbody_build) (Exited 2)) (trace r) /\
  exit_status (value r) = 1%Z /\
  exit_status (value r) <> 2%Z.
Proof.
  cbv zeta. split; [vm_compute; tauto|].
  split; [vm_compute; reflexivity|vm_compute; discriminate].
Qed.

Lemma C7_witness :
  exists cmd,
    value Examples.failing_run = inl (CalledProcessError 2 cmd) /\
    exit_status (value Examples.failing_run) = 1%Z.
Proof.
  set (b := Examples.repo // "dependencies" // "simbody" // "build").
  set (cmd := [ "cmake"; "/home/dev/scone-studio/submodules/simbody";
                "-DCMAKE_BUILD_TYPE=Release";
                "-DCMAKE_INSTALL_PREFIX=/home/dev/scone-studio/dependencies/simbody/install";
                "-DCMAKE_POLICY_VERSION_MINIMUM=3.5" ]).
  exists cmd.
  assert (Hin : In (Subprocess cmd (Some b) (Exited 2)) (trace Examples.failing_run))
    by (vm_compute; tauto).
  assert (Hrc : 2%Z <> 0%Z) by lia.
  destruct (C7_failure_exits_with_status_1
              "simbody" false
              (Examples.on (Examples.linux 8 (Some b) 2) Examples.checkout tt)
              cmd (Some b) 2 Hin Hrc) as (Hv & _ & Hs & _).
  split; [exact Hv|exact Hs].
Defined.

(** * Further properties of the script *)

(** ** Targets and lookups *)

Section Targets.

Context `{Host}.

Lemma main_in_choices target rebuild w :
  In target choices ->
  main target rebuild w = bind ensure_dirs (fun _ => dispatch target rebuild) w.
Proof.
  intros _. reflexivity.
Qed.

Lemma dispatch_deps rebuild : dispatch "deps" rebuild = install_system_deps.
Proof. unfold dispatch. simpl String.eqb. reflexivity. Qed.

Lemma dict_get_SUBDIRS_None name :
  ~ In name dependencies -> dict_get SUBDIRS name = None.
Proof.
  intros Hn. destruct (dict_get SUBDIRS name) as [src|] eqn:E; [|reflexivity].
  apply dict_get_SUBDIRS in E. contradiction.
Qed.

Lemma dict_get_DEPSDIRS_None name :
  ~ In name dependencies -> dict_get DEPSDIRS name = None.
Proof.
  unfold dependencies, DEPSDIRS. simpl. intros Hn.
  repeat match goal with
         | |- context [String.eqb name ?k] =>
             destruct (String.eqb_spec name k) as [->|_]; [tauto|]
         end.
  reflexivity.
Qed.

End Targets.

(** X1. A name that is not a key of [SUBDIRS] is refused before anything
    is done: the cache check and the configure-and-build both raise
    [KeyError] with that name, with no effect. *)
Theorem unknown_dependency_is_a_KeyError `{Host}
    (name : string) (extra : option (list string)) (w : world) :
  ~ In name dependencies ->
  already_built name w = Result [] w (inl (KeyError name)) /\
  cmake_configure_and_build name extra w = Result [] w (inl (KeyError name)).
Proof.
  intros Hn. split.
  - unfold already_built, getitem. rewrite (dict_get_DEPSDIRS_None _ Hn).
    reflexivity.
  - unfold cmake_configure_and_build, getitem.
    rewrite (dict_get_SUBDIRS_None _ Hn). reflexivity.
Qed.

Lemma unknown_dependency_is_a_KeyError_witness :
  let h := Examples.linux 8 None 0 in
  let w := Examples.on h Examples.checkout tt in
  already_built "qt" w = Result [] w (inl (KeyError "qt")) /\
  cmake_configure_and_build "qt" None w = Result [] w (inl (KeyError "qt")).
Proof.
  intros h w. apply (unknown_dependency_is_a_KeyError "qt" None w).
  simpl. intuition discriminate.
Defined.

(** ** Edge cases of a build step *)

Section Step_edges.

Context `{Host}.

Lemma rmtree_file p w :
  stat (w_fs w) p = Some File ->
  rmtree p w = Result [Rmtree p] w (inl (NotADirectoryError p)).
Proof. intros Hf. unfold rmtree. now rewrite Hf. Qed.

Lemma cmake_build_is_a_file name src extra w :
  dict_get SUBDIRS name = Some src ->
  stat (w_fs w) (build_dir name) = Some File ->
  cmake_configure_and_build name extra w =
    Result [Rmtree (build_dir name)] w
           (inl (NotADirectoryError (build_dir name))).
Proof.
  intros Hsrc Hf.
  assert (Hd := dict_get_DEPSDIRS name (dict_get_SUBDIRS _ _ Hsrc)).
  unfold cmake_configure_and_build, getitem.
  rewrite Hsrc, Hd. rewrite !bind_ret. fold (build_dir name).
  assert (Ee : value (path_exists (build_dir name) w) = inr true).
  { unfold path_exists. cbn [value]. rewrite Hf.
    now rewrite bool_decide_eq_true_2. }
  rewrite (bind_inr _ _ _ _ Ee). cbn [path_exists trace final].
  rewrite (bind_inl _ _ _ (NotADirectoryError (build_dir name)))
    by (now rewrite rmtree_file).
  rewrite rmtree_file by exact Hf. reflexivity.
Qed.

(** When a step is skipped. *)
Lemma not_skipped name force w :
  name = "scone" \/ stat (w_fs w) (install_dir name) = None \/ force = true ->
  negb (String.eqb name "scone") &&
    bool_decide (is_Some (w_fs w !! install_dir name)) && negb force = false.
Proof.
  intros [->|[Hi| ->]].
  - reflexivity.
  - unfold install_dir in *. rewrite stat_joinpath in Hi. rewrite Hi.
    rewrite bool_decide_eq_false_2 by (now intros [? ?]).
    now rewrite andb_false_r.
  - now rewrite andb_false_r.
Qed.

End Step_edges.

(** X2. A plain file where a step's build directory should be stops the
    step at the reset: whenever the step is not skipped, [rmtree] refuses
    the file with [NotADirectoryError], and the step ends there, before
    any tool is started and with the world as it was. *)
Theorem build_path_is_a_file `{Host}
    (name : string) (force : bool) (w : world) :
  In name dependencies ->
  stat (w_fs w) (build_dir name) = Some File ->
  name = "scone" \/ stat (w_fs w) (install_dir name) = None \/ force = true ->
  dispatch name force w =
    Result [Call (step name); Rmtree (build_dir name)] w
           (inl (NotADirectoryError (build_dir name))).
Proof.
  intros Hn Hf Hns. destruct (In_dependencies _ Hn) as [src Hsrc].
  destruct (step_shape name force w Hn) as (notice & extra & ->).
  rewrite (not_skipped _ _ _ Hns). rewrite called_eq.
  rewrite (cmake_build_is_a_file name src extra w Hsrc Hf). reflexivity.
Qed.

Lemma build_path_is_a_file_witness :
  let h := Examples.linux 8 None 0 in
  let w := Examples.on h Examples.osg_build_is_a_file tt in
  dispatch "osg" false w =
    Result [Call "build_osg"; Rmtree (build_dir "osg")] w
           (inl (NotADirectoryError (build_dir "osg"))).
Proof.
  intros h w. apply (build_path_is_a_file "osg" false w).
  - simpl; tauto.
  - vm_compute; reflexivity.
  - right; left. vm_compute; reflexivity.
Defined.

Section Configure_commands.

Context `{Host}.

Lemma invocations_called {A} f (body : M A) w :
  invocations (trace (called f body w)) = invocations (trace (body w)).
Proof.
  rewrite called_eq. cbn [trace].
  change (invocations (Call f :: ?t)) with (invocations t).
  unfold invocations. rewrite omap_app.
  destruct (value (body w)); simpl; now rewrite app_nil_r.
Qed.

(** The first child process of a step that configures and builds [name]
    with the flags [extra]. *)
Lemma first_invocation name src extra f w cmd cwd :
  dict_get SUBDIRS name = Some src ->
  invocations (trace (called f (cmake_configure_and_build name extra) w))
    !! 0%nat = Some (cmd, cwd) ->
  cmd = configure_cmd src name extra /\ cwd = Some (build_dir name).
Proof.
  intros Hsrc.
  destruct (full_sequence_invocations name src extra w _
              (called_cmake_full name src extra w Hsrc)) as [Hpre _].
  rewrite invocations_called in *. intros Hl.
  eapply prefix_lookup_Some in Hl; [|exact Hpre].
  now injection Hl as <- <-.
Qed.

End Configure_commands.

(** X3. The configure command of the scene-graph library is the five
    common arguments followed by the two Qt flags; those of the physics
    library and of the application are the five common arguments and
    nothing else.  All run in the dependency's build directory. *)
Theorem configure_command_of_osg_simbody_scone `{Host}
    (name : string) (src : path) (force : bool) (w : world)
    (cmd : list string) (cwd : option path) :
  In name ["osg"; "simbody"; "scone"] ->
  dict_get SUBDIRS name = Some src ->
  invocations (trace (dispatch name force w)) !! 0%nat = Some (cmd, cwd) ->
  cmd =
    [ "cmake"; str_path src; "-DCMAKE_BUILD_TYPE=Release";
      "-DCMAKE_INSTALL_PREFIX=" +:+ str_path (install_dir name);
      "-DCMAKE_POLICY_VERSION_MINIMUM=3.5" ] ++
    (if String.eqb name "osg"
     then ["-DOSG_USE_QT=ON"; "-DDESIRED_QT_VERSION=5"] else []) /\
  cwd = Some (build_dir name).
Proof.
  intros Hn Hsrc.
  destruct (build_steps_are_dispatched force) as (D1 & D2 & _ & D4).
  simpl in Hn. destruct Hn as [<-|[<-|[<-|[]]]].
  - rewrite <- D1. unfold build_osg.
    rewrite cached_step_eq by (simpl; tauto).
    destruct (_ && _); [discriminate|]. intros Hl.
    apply (first_invocation "osg" src) in Hl; [|exact Hsrc]. exact Hl.
  - rewrite <- D2. unfold build_simbody.
    rewrite cached_step_eq by (simpl; tauto).
    destruct (_ && _); [discriminate|]. intros Hl.
    apply (first_invocation "simbody" src) in Hl; [|exact Hsrc]. exact Hl.
  - rewrite <- D4. unfold build_scone. intros Hl.
    apply (first_invocation "scone" src) in Hl; [|exact Hsrc]. exact Hl.
Qed.

Lemma configure_command_of_osg_simbody_scone_witness :
  let h := Examples.linux 8 None 0 in
  let w := final (ensure_dirs (Examples.on h Examples.checkout tt)) in
  let cmd :=
    [ "cmake"; "/home/dev/scone-studio/submodules/OpenSceneGraph";
      "-DCMAKE_BUILD_TYPE=Release";
      "-DCMAKE_INSTALL_PREFIX=/home/dev/scone-studio/dependencies/osg/install";
      "-DCMAKE_POLICY_VERSION_MINIMUM=3.5";
      "-DOSG_USE_QT=ON"; "-DDESIRED_QT_VERSION=5" ] in
  invocations (trace (dispatch "osg" false w)) !! 0%nat =
    Some (cmd, Some (build_dir "osg")) /\
  cmd =
    [ "cmake"; str_path (SUB // "OpenSceneGraph"); "-DCMAKE_BUILD_TYPE=Release";
      "-DCMAKE_INSTALL_PREFIX=" +:+ str_path (install_dir "osg");
      "-DCMAKE_POLICY_VERSION_MINIMUM=3.5" ] ++
    ["-DOSG_USE_QT=ON"; "-DDESIRED_QT_VERSION=5"].
Proof.
  intros h w cmd.
  assert (Hl : invocations (trace (dispatch "osg" false w)) !! 0%nat =
               Some (cmd, Some (build_dir "osg"))) by (vm_compute; reflexivity).
  split; [exact Hl|].
  apply (configure_command_of_osg_simbody_scone
           "osg" (SUB // "OpenSceneGraph") false w cmd _
           (or_introl eq_refl) eq_refl Hl).
Defined.

(** ** The prerequisite installer *)

Section Prerequisites.

Context `{Host}.

Lemma for_each_mkdir_events ds w e :
  In e (trace (for_each ds (fun d => mkdir d true) w)) ->
  exists d, In d ds /\ e = Mkdir d true.
Proof.
  revert w. induction ds as [|d ds IH]; intros w; simpl; [tauto|].
  rewrite trace_bind, trace_mkdir. intros Hin.
  apply in_app_or in Hin as [[<-|[]]|Hin]; [eauto|].
  destruct (value _); [destruct Hin|].
  apply IH in Hin as (d' & Hd' & ->). eauto.
Qed.

Lemma ensure_dirs_events w e :
  In e (trace (ensure_dirs w)) -> exists d, In d made_dirs /\ e = Mkdir d true.
Proof. rewrite ensure_dirs_for_each. apply for_each_mkdir_events. Qed.

Lemma ensure_dirs_invocations w : invocations (trace (ensure_dirs w)) = [].
Proof.
  assert (Hall := ensure_dirs_events w).
  induction (trace (ensure_dirs w)) as [|e t IH]; [reflexivity|].
  destruct (Hall e (or_introl eq_refl)) as (d & _ & ->). simpl.
  apply IH. intros e' He'. apply Hall. now right.
Qed.

Lemma invocations_app t1 t2 :
  invocations (t1 ++ t2) = invocations t1 ++ invocations t2.
Proof. apply omap_app. Qed.

Lemma install_system_deps_spec w :
  let r := install_system_deps w in
  let all := map (fun c => (c, @None path)) deps_commands in
  invocations (trace r) `prefix_of` all /\
  (value r = inr tt -> invocations (trace r) = all) /\
  (forall e, In e (trace r) ->
             (exists s, e = Print s) \/ exists cmd o, e = Subprocess cmd None o).
Proof.
  unfold install_system_deps. cbv zeta.
  assert (Hev : forall cmd o e,
             In e [banner cmd; Subprocess cmd None o] ->
             (exists s, e = Print s) \/
             exists cmd' o', e = Subprocess cmd' None o').
  { intros cmd o e [<-|[<-|[]]]; unfold banner; eauto. }
  rewrite trace_bind, value_bind, trace_run.
  destruct (value (run _ None w)) as [x1|[]] eqn:E1.
  { split; [|split; [discriminate|]].
    - now exists (drop 1 (map (fun c => (c, @None path)) deps_commands)).
    - intros ev. rewrite app_nil_r. apply Hev. }
  apply run_returns in E1. rewrite E1.
  rewrite trace_bind, value_bind, trace_run.
  destruct (value (run _ None (final (run _ None w)))) as [x2|[]] eqn:E2.
  { split; [|split; [discriminate|]].
    - now exists (drop 2 (map (fun c => (c, @None path)) deps_commands)).
    - intros ev Hin. rewrite app_nil_r in Hin.
      apply in_app_or in Hin as [Hin|Hin]; eapply Hev; eauto. }
  apply run_returns in E2. rewrite E2. rewrite trace_run.
  split; [|split].
  - now exists [].
  - intros Ev. apply run_returns in Ev. now rewrite Ev.
  - intros ev Hin. apply in_app_or in Hin as [Hin|Hin]; [eapply Hev; eauto|].
    apply in_app_or in Hin as [Hin|Hin]; eapply Hev; eauto.
Qed.

End Prerequisites.

(** X4. The [deps] target only installs: after the directories are made
    it runs [apt-get update], [apt-get install -y] with the package list
    and [gem install fpm], in that order and through [sudo], all three
    when it returns.  It enters no build step, deletes nothing and makes
    no directory but the six of [ensure_dirs]. *)
Theorem deps_target_only_installs `{Host} (rebuild : bool) (w : world) :
  let r := main "deps" rebuild w in
  let all := map (fun c => (c, @None path)) deps_commands in
  invocations (trace r) `prefix_of` all /\
  (value r = inr tt -> invocations (trace r) = all) /\
  Forall (fun c => hd_error c = Some "sudo") deps_commands /\
  boundaries (trace r) = [] /\
  (forall e, In e (trace r) ->
     (exists d, In d made_dirs /\ e = Mkdir d true) \/
     (exists s, e = Print s) \/
     (exists cmd o, e = Subprocess cmd None o)).
Proof.
  cbv zeta.
  rewrite main_in_choices by (simpl; tauto). rewrite dispatch_deps.
  rewrite trace_bind, value_bind.
  destruct (install_system_deps_spec (final (ensure_dirs w)))
    as (Hpre & Hret & Hev).
  rewrite invocations_app, (ensure_dirs_invocations w).
  rewrite boundaries_app, (ensure_dirs_boundaries w).
  cbn [app].
  split; [|split; [|split; [|split]]].
  - destruct (value (ensure_dirs w)); [apply prefix_nil|exact Hpre].
  - destruct (value (ensure_dirs w)); [discriminate|exact Hret].
  - repeat constructor.
  - destruct (value (ensure_dirs w)); [reflexivity|].
    assert (Hb : forall t : list event,
               (forall e, In e t -> (exists s, e = Print s) \/
                                    exists cmd o, e = Subprocess cmd None o) ->
               boundaries t = []).
    { induction t as [|e t IH]; intros Ht; [reflexivity|].
      simpl. destruct (Ht e (or_introl eq_refl)) as [[s ->]|(c & o & ->)];
        simpl; apply IH; intros e' He'; apply Ht; now right. }
    now apply Hb.
  - intros e Hin. apply in_app_or in Hin as [Hin|Hin].
    + left. exact (ensure_dirs_events w e Hin).
    + right. destruct (value (ensure_dirs w)); [destruct Hin|]. exact (Hev e Hin).
Qed.

(** ** Single targets *)

Section Single_target.

Context `{Host}.

Lemma dependencies_are_choices name : In name dependencies -> In name choices.
Proof. unfold dependencies, choices. simpl. intuition. Qed.

Lemma main_dependency name rebuild w :
  In name dependencies ->
  trace (main name rebuild w) =
    trace (ensure_dirs w) ++
    match value (ensure_dirs w) with
    | inr _ => trace (dispatch name rebuild (final (ensure_dirs w)))
    | inl _ => []
    end.
Proof.
  intros Hn. rewrite main_in_choices by (now apply dependencies_are_choices).
  apply trace_bind.
Qed.

End Single_target.

(** X5. A run for one dependency builds that dependency and no other:
    the only build step it can enter is that dependency's own, and every
    child process it starts runs in that dependency's build directory.  In
    particular the [opensim] target does not build the physics library it
    is configured against. *)
Theorem single_target_builds_only_itself `{Host}
    (name : string) (rebuild : bool) (w : world) :
  In name dependencies ->
  let r := main name rebuild w in
  boundaries (trace r) `prefix_of` [Call (step name); Return (step name)] /\
  (forall f, In (Call f) (trace r) -> f = step name) /\
  (forall cmd cwd o,
      In (Subprocess cmd cwd o) (trace r) -> cwd = Some (build_dir name)).
Proof.
  intros Hn r. subst r.
  assert (Hpre : boundaries (trace (main name rebuild w)) `prefix_of`
                 [Call (step name); Return (step name)]).
  { rewrite (main_dependency _ _ _ Hn), boundaries_app.
    rewrite (ensure_dirs_boundaries w). cbn [app].
    destruct (value (ensure_dirs w)); [apply prefix_nil|].
    rewrite (step_boundaries name rebuild _ Hn).
    destruct (value _); [now exists [Return (step name)]|now exists []]. }
  split; [exact Hpre|]. split.
  - intros f Hin.
    assert (Hin' : In (Call f) (boundaries (trace (main name rebuild w)))).
    { apply List.filter_In. now split. }
    destruct Hpre as [k Hk]. 
    assert (Hin'' : In (Call f) [Call (step name); Return (step name)]).
    { rewrite Hk. apply in_or_app. now left. }
    destruct Hin'' as [[= <-]|[?|[]]]; [reflexivity|discriminate].
  - intros cmd cwd o. rewrite (main_dependency _ _ _ Hn). intros Hin.
    apply in_app_or in Hin as [Hin|Hin].
    + apply ensure_dirs_events in Hin as (d & _ & ?). discriminate.
    + destruct (value (ensure_dirs w)); [destruct Hin|].
      exact (step_invocations_cwd name rebuild _ cmd cwd o Hn Hin).
Qed.

Lemma single_target_builds_only_itself_witness :
  let h := Examples.linux 8 None 0 in
  let r := main "opensim" false (Examples.on h Examples.checkout tt) in
  value r = inr tt /\
  boundaries (trace r) = [Call "build_opensim"; Return "build_opensim"] /\
  ~ In (Call "build_simbody") (trace r).
Proof.
  intros h r.
  assert (Hn : In "opensim" dependencies) by (simpl; tauto).
  destruct (single_target_builds_only_itself
              "opensim" false (Examples.on h Examples.checkout tt) Hn)
    as (_ & Hcall & _).
  split; [vm_compute; reflexivity|]. split; [vm_compute; reflexivity|].
  intros Hin. apply Hcall in Hin. discriminate.
Defined.

(** ** More on the directories *)

Section More_on_ensure_dirs.

Context `{Host}.

Lemma mkdir_existing p w :
  stat (w_fs w) p = Some Dir ->
  mkdir p true w = Result [Mkdir p true] w (inr tt).
Proof. intros Hp. unfold mkdir. now rewrite Hp. Qed.

Lemma for_each_mkdir_noop ds w :
  (forall d, In d ds -> stat (w_fs w) d = Some Dir) ->
  for_each ds (fun d => mkdir d true) w =
    Result (map (fun d => Mkdir d true) ds) w (inr tt).
Proof.
  induction ds as [|d ds IH]; intros Hds; [reflexivity|]. simpl for_each.
  assert (Hd := mkdir_existing d w (Hds d (or_introl eq_refl))).
  rewrite (bind_inr _ _ _ tt) by (now rewrite Hd).
  rewrite Hd. cbn [trace final value].
  rewrite IH by (intros d' Hd'; apply Hds; now right). reflexivity.
Qed.

Lemma mkdir_grows p e w :
  value (mkdir p e w) = inr tt -> w_fs w ⊆ w_fs (final (mkdir p e w)).
Proof.
  unfold mkdir. destruct (stat (w_fs w) p) as [[|]|] eqn:Ep; simpl; [done|done|].
  destruct (stat (w_fs w) (parent p)) as [[|]|]; simpl; [done| |done].
  intros _. apply insert_subseteq. destruct p; [discriminate|exact Ep].
Qed.

Lemma mkdir_refuses_a_file p e w :
  stat (w_fs w) p = Some File ->
  mkdir p e w = Result [Mkdir p e] w (inl (FileExistsError p)).
Proof. intros Hp. unfold mkdir. now rewrite Hp. Qed.

Lemma mkdir_failure p e w x :
  value (mkdir p e w) = inl x ->
  x = FileExistsError p \/ x = FileNotFoundError p \/ x = NotADirectoryError p.
Proof.
  unfold mkdir. repeat case_match; simpl; intros [= <-]; tauto.
Qed.

Lemma for_each_mkdir_blocked ds w d :
  In d ds -> stat (w_fs w) d = Some File ->
  exists p,
    In p ds /\
    (value (for_each ds (fun d => mkdir d true) w) = inl (FileExistsError p) \/
     value (for_each ds (fun d => mkdir d true) w) = inl (FileNotFoundError p) \/
     value (for_each ds (fun d => mkdir d true) w) = inl (NotADirectoryError p)).
Proof.
  revert w. induction ds as [|d0 ds IH]; intros w Hin Hf; [destruct Hin|].
  simpl for_each. rewrite value_bind.
  destruct (value (mkdir d0 true w)) as [x|[]] eqn:E.
  - exists d0. split; [now left|].
    apply mkdir_failure in E as [->|[->| ->]]; tauto.
  - destruct Hin as [->|Hin].
    + rewrite (mkdir_refuses_a_file _ _ _ Hf) in E. discriminate.
    + destruct (IH (final (mkdir d0 true w)) Hin) as (p & Hp & Hv).
      * eapply stat_weaken; [exact Hf|]. now apply mkdir_grows.
      * exists p. split; [now right|exact Hv].
Qed.

End More_on_ensure_dirs.

(** X6. [ensure_dirs] is idempotent: once it has returned, running it
    again returns too, goes through the same six [mkdir] calls and changes
    nothing. *)
Theorem ensure_dirs_is_idempotent `{Host} (w : world) :
  value (ensure_dirs w) = inr tt ->
  let w' := final (ensure_dirs w) in
  ensure_dirs w' =
    Result [ Mkdir SUB true; Mkdir DEPS true;
             Mkdir (DEPS // "osg") true; Mkdir (DEPS // "simbody") true;
             Mkdir (DEPS // "opensim") true; Mkdir (DEPS // "scone") true ]
           w' (inr tt).
Proof.
  intros E w'.
  assert (E' := E). rewrite ensure_dirs_for_each, made_dirs_eq in E'.
  destruct (for_each_mkdir_returns made_dirs_split w E') as (Hd & _ & _).
  rewrite <- made_dirs_eq, <- ensure_dirs_for_each in Hd. fold w' in Hd.
  rewrite ensure_dirs_for_each.
  apply (for_each_mkdir_noop made_dirs w').
  intros d Hin. rewrite made_dirs_eq in Hin.
  apply in_map_iff in Hin as ([p x] & <- & Hin). simpl.
  rewrite stat_joinpath. exact (Hd (p, x) Hin).
Qed.

Lemma ensure_dirs_is_idempotent_witness :
  let h := Examples.linux 8 None 0 in
  let w := Examples.on h Examples.checkout tt in
  let w' := final (ensure_dirs w) in
  ensure_dirs w' =
    Result [ Mkdir SUB true; Mkdir DEPS true;
             Mkdir (DEPS // "osg") true; Mkdir (DEPS // "simbody") true;
             Mkdir (DEPS // "opensim") true; Mkdir (DEPS // "scone") true ]
           w' (inr tt).
Proof.
  intros h w. apply (ensure_dirs_is_idempotent w). vm_compute; reflexivity.
Defined.

(** X7. On a tree where the six directories exist, a run whose build
    step is skipped changes nothing at all: it goes through the six
    [mkdir] calls and the step's notice, starts no tool, returns, and the
    world it leaves is the world it found. *)
Theorem skipped_run_on_a_prepared_tree_changes_nothing `{Host}
    (name : string) (w : world) :
  In name ["osg"; "simbody"; "opensim"] ->
  (forall d, In d made_dirs -> stat (w_fs w) d = Some Dir) ->
  is_Some (stat (w_fs w) (install_dir name)) ->
  let r := main name false w in
  final r = w /\
  value r = inr tt /\
  invocations (trace r) = [] /\
  exists notice,
    trace r =
      map (fun d => Mkdir d true) made_dirs ++
      [Call (step name); Print notice; Return (step name)].
Proof.
  intros Hn Hdirs Hi r.
  assert (Hd : In name dependencies) by (simpl in *; tauto).
  assert (He : ensure_dirs w =
               Result (map (fun d => Mkdir d true) made_dirs) w (inr tt)).
  { rewrite ensure_dirs_for_each. now apply for_each_mkdir_noop. }
  destruct (step_shape name false w Hd) as (notice & extra & Hs).
  assert (Hk : negb (String.eqb name "scone") &&
               bool_decide (is_Some (w_fs w !! install_dir name)) &&
               negb false = true).
  { unfold install_dir in *. rewrite stat_joinpath in Hi.
    rewrite bool_decide_eq_true_2 by exact Hi.
    simpl in Hn. destruct Hn as [<-|[<-|[<-|[]]]]; reflexivity. }
  rewrite Hk in Hs.
  assert (Hr : r = Result (map (fun d => Mkdir d true) made_dirs ++
                           [Call (step name); Print notice; Return (step name)])
                          w (inr tt)).
  { subst r. rewrite main_in_choices by (now apply dependencies_are_choices).
    rewrite (bind_inr _ _ _ tt) by (now rewrite He).
    rewrite He. cbn [trace final value]. rewrite Hs. reflexivity. }
  rewrite Hr. cbn [trace final value].
  split; [reflexivity|]. split; [reflexivity|]. split; [reflexivity|].
  now exists notice.
Qed.

Lemma skipped_run_on_a_prepared_tree_changes_nothing_witness :
  let h := Examples.linux 8 None 0 in
  let w := Examples.on h Examples.prepared tt in
  let r := main "simbody" false w in
  final r = w /\ value r = inr tt /\ invocations (trace r) = [].
Proof.
  intros h w r.
  destruct (skipped_run_on_a_prepared_tree_changes_nothing "simbody" w)
    as (Hf & Hv & Hi & _).
  - simpl; tauto.
  - intros d Hd. simpl in Hd.
    repeat (destruct Hd as [<-|Hd]; [vm_compute; reflexivity|]). destruct Hd.
  - exists Dir. vm_compute; reflexivity.
  - split; [exact Hf|]. split; [exact Hv|exact Hi].
Defined.

(** X8. A plain file where one of the six directories should be stops
    every run at [ensure_dirs]: a [mkdir] is refused, the target is not
    dispatched, so no build step is entered and no tool is started, and
    the process ends with status 1. *)
Theorem file_in_the_way_of_a_directory `{Host}
    (target : string) (rebuild : bool) (w : world) (d : path) :
  In target choices ->
  In d made_dirs ->
  stat (w_fs w) d = Some File ->
  let r := main target rebuild w in
  (exists p, In p made_dirs /\
     (value r = inl (FileExistsError p) \/
      value r = inl (FileNotFoundError p) \/
      value r = inl (NotADirectoryError p))) /\
  invocations (trace r) = [] /\
  boundaries (trace r) = [] /\
  exit_status (value r) = 1%Z.
Proof.
  intros Ht Hd Hf r.
  destruct (for_each_mkdir_blocked made_dirs w d Hd Hf) as (p & Hp & Hv).
  rewrite <- ensure_dirs_for_each in Hv.
  assert (Hr : exists e, value (ensure_dirs w) = inl e /\
                         (e = FileExistsError p \/ e = FileNotFoundError p \/
                          e = NotADirectoryError p)).
  { destruct Hv as [Hv|[Hv|Hv]]; eexists; split; eauto. }
  destruct Hr as (e & He & Hshape).
  assert (Hm : r = Result (trace (ensure_dirs w)) (final (ensure_dirs w)) (inl e)).
  { subst r. rewrite main_in_choices by exact Ht.
    exact (bind_inl ensure_dirs _ w e He). }
  rewrite Hm. cbn [trace value].
  split; [|split; [|split]].
  - exists p. split; [exact Hp|].
    destruct Hshape as [->|[->| ->]]; tauto.
  - apply ensure_dirs_invocations.
  - apply ensure_dirs_boundaries.
  - destruct Hshape as [->|[->| ->]]; reflexivity.
Qed.

Lemma file_in_the_way_of_a_directory_witness :
  let h := Examples.linux 8 None 0 in
  let w := Examples.on h Examples.submodules_is_a_file tt in
  let r := main "all" true w in
  value r = inl (FileExistsError SUB) /\
  invocations (trace r) = [] /\
  exit_status (value r) = 1%Z.
Proof.
  intros h w r.
  destruct (file_in_the_way_of_a_directory "all" true w SUB)
    as (_ & Hi & _ & Hs).
  - simpl; tauto.
  - simpl; tauto.
  - vm_compute; reflexivity.
  - split; [vm_compute; reflexivity|]. split; [exact Hi|exact Hs].
Defined.

(** ** The exceptions a run can end with *)

Section Failures.

Context `{Host}.
























End Failures.

(** ** Where a run stops *)

Section Where_a_run_stops.

Context `{Host}.


























End Where_a_run_stops.





(** ** Nothing follows a failure *)

Section Nothing_follows_a_failure.

Context `{Host}.

Lemma saf_bind {A B} (m : M A) (k : A -> M B) :
  fails_fast m ->
  always_stops_at_failure m ->
  (forall x, always_stops_at_failure (k x)) ->
  always_stops_at_failure (bind m k).
Proof.
  intros Hff Hm Hk w i cmd cwd o e.
  destruct (value (m w)) as [e'|x] eqn:E.
  - rewrite (bind_inl _ _ _ _ E). cbn [trace]. apply Hm.
  - rewrite (bind_inr _ _ _ _ E). cbn [trace]. intros Hl Hf.
    rewrite length_app.
    destruct (decide (i < length (trace (m w)))) as [Hi|Hi].
    + rewrite lookup_app_l in Hl by exact Hi.
      apply list_elem_of_lookup_2, list_elem_of_In in Hl.
      destruct (Hff w) as [Hff1 _].
      destruct (Hff1 _ _ _ _ Hl Hf) as [Hv _]. congruence.
    + rewrite lookup_app_r in Hl by lia.
      pose proof (Hk x (final (m w)) _ _ _ _ _ Hl Hf). lia.
Qed.

Lemma saf_quiet {A} (m : M A) :
  (forall w cmd cwd o, ~ In (Subprocess cmd cwd o) (trace (m w))) ->
  always_stops_at_failure m.
Proof.
  intros Hq w i cmd cwd o e Hl _.
  apply list_elem_of_lookup_2, list_elem_of_In in Hl. now apply Hq in Hl.
Qed.

Lemma saf_ret {A} (x : A) : always_stops_at_failure (ret x).
Proof. apply saf_quiet. simpl. tauto. Qed.

Lemma saf_print s : always_stops_at_failure (print s).
Proof. apply saf_quiet. simpl. intros w cmd cwd o [?|[]]. discriminate. Qed.

Lemma saf_path_exists p : always_stops_at_failure (path_exists p).
Proof. apply saf_quiet. simpl. tauto. Qed.

Lemma saf_mkdir p e : always_stops_at_failure (mkdir p e).
Proof.
  apply saf_quiet. intros w cmd cwd o. rewrite trace_mkdir.
  intros [?|[]]. discriminate.
Qed.

Lemma saf_rmtree p : always_stops_at_failure (rmtree p).
Proof.
  apply saf_quiet. intros w cmd cwd o. rewrite trace_rmtree.
  intros [?|[]]. discriminate.
Qed.

Lemma saf_getitem {V} (d : dict V) k : always_stops_at_failure (getitem d k).
Proof.
  apply saf_quiet. intros w cmd cwd o. unfold getitem.
  destruct (dict_get d k); simpl; tauto.
Qed.

Lemma saf_run cmd cwd : always_stops_at_failure (run cmd cwd).
Proof.
  intros w i cmd' cwd' o e. rewrite trace_run.
  destruct i as [|[|i]]; simpl; [discriminate|reflexivity|discriminate].
Qed.

Lemma saf_called {A} f (body : M A) :
  fails_fast body -> always_stops_at_failure body ->
  always_stops_at_failure (called f body).
Proof.
  intros Hff Hb w i cmd cwd o e. rewrite called_eq. cbn [trace].
  destruct i as [|i]; [discriminate|]. simpl. intros Hl Hf.
  rewrite length_app.
  destruct (decide (i < length (trace (body w)))) as [Hi|Hi].
  - rewrite lookup_app_l in Hl by exact Hi.
    pose proof (Hb w _ _ _ _ _ Hl Hf) as Hlen.
    apply list_elem_of_lookup_2, list_elem_of_In in Hl.
    destruct (Hff w) as [Hff1 _]. destruct (Hff1 _ _ _ _ Hl Hf) as [Hv _].
    rewrite Hv. simpl. lia.
  - rewrite lookup_app_r in Hl by lia.
    destruct (value (body w)); [now rewrite lookup_nil in Hl|].
    destruct (i - length (trace (body w))) as [|j]; simpl in Hl;
      [discriminate|now rewrite lookup_nil in Hl].
Qed.

Lemma saf_for_each {A} (xs : list A) (body : A -> M unit) :
  (forall x, fails_fast (body x)) ->
  (forall x, always_stops_at_failure (body x)) ->
  always_stops_at_failure (for_each xs body).
Proof.
  intros Hff Hb. induction xs as [|x xs IH]; simpl; [apply saf_ret|].
  apply saf_bind; [apply Hff|apply Hb|intros _; apply IH].
Qed.

Ltac fast :=
  repeat match goal with
         | |- forall _, _ => intros ?
         | |- fails_fast (if ?b then _ else _) => destruct b
         | |- fails_fast (run _ _) => apply ff_run
         | |- fails_fast (called _ _) => apply ff_called
         | |- fails_fast (for_each _ _) => apply ff_for_each
         | |- fails_fast (bind _ _) => apply ff_bind
         | |- fails_fast _ =>
             first [ apply ff_ret | apply ff_print | apply ff_path_exists
                   | apply ff_mkdir | apply ff_rmtree | apply ff_getitem
                   | apply ff_cmake ]
         | |- always_stops_at_failure (if ?b then _ else _) => destruct b
         | |- always_stops_at_failure (run _ _) => apply saf_run
         | |- always_stops_at_failure (called _ _) => apply saf_called
         | |- always_stops_at_failure (for_each _ _) => apply saf_for_each
         | |- always_stops_at_failure (bind _ _) => apply saf_bind
         | |- always_stops_at_failure _ =>
             first [ apply saf_ret | apply saf_print | apply saf_path_exists
                   | apply saf_mkdir | apply saf_rmtree | apply saf_getitem ]
         end.

Lemma saf_cmake name extra :
  always_stops_at_failure (cmake_configure_and_build name extra).
Proof. unfold cmake_configure_and_build. fast. Qed.

Lemma saf_build_osg force : always_stops_at_failure (build_osg force).
Proof. unfold build_osg. fast; apply saf_cmake. Qed.

Lemma saf_build_simbody force : always_stops_at_failure (build_simbody force).
Proof. unfold build_simbody. fast; apply saf_cmake. Qed.

Lemma saf_build_opensim force : always_stops_at_failure (build_opensim force).
Proof. unfold build_opensim. fast; apply saf_cmake. Qed.

Lemma saf_build_scone force : always_stops_at_failure (build_scone force).
Proof. unfold build_scone. fast; apply saf_cmake. Qed.

Lemma saf_build_all force : always_stops_at_failure (build_all force).
Proof.
  unfold build_all.
  apply saf_bind; [apply ff_build_osg|apply saf_build_osg|intros _].
  apply saf_bind; [apply ff_build_simbody|apply saf_build_simbody|intros _].
  apply saf_bind; [apply ff_build_opensim|apply saf_build_opensim|intros _].
  apply saf_build_scone.
Qed.

Lemma saf_install_system_deps : always_stops_at_failure install_system_deps.
Proof. unfold install_system_deps. fast. Qed.

Lemma saf_ensure_dirs : always_stops_at_failure ensure_dirs.
Proof. unfold ensure_dirs. fast. Qed.

Lemma saf_dispatch target rebuild :
  always_stops_at_failure (dispatch target rebuild).
Proof.
  unfold dispatch.
  destruct (String.eqb target "deps"); [exact saf_install_system_deps|].
  destruct (String.eqb target "osg"); [exact (saf_build_osg _)|].
  destruct (String.eqb target "simbody"); [exact (saf_build_simbody _)|].
  destruct (String.eqb target "opensim"); [exact (saf_build_opensim _)|].
  destruct (String.eqb target "scone"); [exact (saf_build_scone _)|].
  destruct (String.eqb target "all"); [exact (saf_build_all _)|].
  exact (saf_ret tt).
Qed.

Lemma saf_main target rebuild : always_stops_at_failure (main target rebuild).
Proof.
  unfold main. apply saf_bind;
    [apply ff_ensure_dirs|apply saf_ensure_dirs|intros _; apply saf_dispatch].
Qed.

End Nothing_follows_a_failure.

(** X11. Whatever the target, a child process that exits with a code
    other than 0, or that cannot be started, is the last thing the run
    does: nothing is printed, made, deleted or started after it, and no
    build step returns.  So the commands of [deps] and the steps of [all]
    stop at the first failure, whichever it is. *)
Theorem nothing_follows_a_failed_tool `{Host}
    (target : string) (rebuild : bool) (w : world)
    (before after : list event)
    (cmd : list string) (cwd : option path) (o : outcome) :
  trace (main target rebuild w) = before ++ Subprocess cmd cwd o :: after ->
  o <> Exited 0 ->
  after = [] /\
  value (main target rebuild w) <> inr tt /\
  Forall (fun e => forall cmd' cwd' o',
            e = Subprocess cmd' cwd' o' -> o' = Exited 0) before.
Proof.
  intros Ht Ho.
  assert (Hf : exists e, failure o cmd = Some e).
  { destruct o as [rc|]; simpl; [|eauto].
    destruct (Z.eqb_spec rc 0) as [->|]; [done|eauto]. }
  destruct Hf as [e Hf].
  assert (Hl : trace (main target rebuild w) !! length before =
               Some (Subprocess cmd cwd o)).
  { rewrite Ht. now rewrite list_lookup_middle. }
  pose proof (saf_main target rebuild w _ _ _ _ _ Hl Hf) as Hlen.
  rewrite Ht, length_app in Hlen. simpl in Hlen.
  split; [destruct after; [reflexivity|simpl in Hlen; lia]|].
  split.
  - destruct (ff_main target rebuild w) as [Hff _].
    assert (Hin : In (Subprocess cmd cwd o) (trace (main target rebuild w))).
    { rewrite Ht. apply in_or_app. simpl. tauto. }
    destruct (Hff _ _ _ _ Hin Hf) as [Hv _]. rewrite Hv. discriminate.
  - apply Forall_forall. intros ev Hev cmd' cwd' o' ->.
    apply list_elem_of_lookup_1 in Hev as [i Hi].
    assert (Hi' := Hi). apply lookup_lt_Some in Hi'.
    assert (Hli : trace (main target rebuild w) !! i =
                  Some (Subprocess cmd' cwd' o')).
    { rewrite Ht. now rewrite lookup_app_l. }
    destruct o' as [rc|].
    + destruct (Z.eqb_spec rc 0) as [->|Hrc]; [reflexivity|].
      assert (Hf' : failure (Exited rc) cmd' = Some (CalledProcessError rc cmd')).
      { simpl. destruct (Z.eqb_spec rc 0); [contradiction|reflexivity]. }
      pose proof (saf_main target rebuild w _ _ _ _ _ Hli Hf') as Hlen'.
      rewrite Ht, length_app in Hlen'. simpl in Hlen'. lia.
    + pose proof (saf_main target rebuild w _ _ _ _ _ Hli eq_refl) as Hlen'.
      rewrite Ht, length_app in Hlen'. simpl in Hlen'. lia.
Qed.

Lemma nothing_follows_a_failed_tool_witness :
  let r := Examples.failing_run in
  let cmd :=
    [ "cmake"; "/home/dev/scone-studio/submodules/simbody";
      "-DCMAKE_BUILD_TYPE=Release";
      "-DCMAKE_INSTALL_PREFIX=/home/dev/scone-studio/dependencies/simbody/install";
      "-DCMAKE_POLICY_VERSION_MINIMUM=3.5" ] in
  trace r =
    removelast (trace r) ++
    [Subprocess cmd (Some Examples.simbody_build) (Exited 2)] /\
  value r <> inr tt.
Proof.
  intros r cmd.
  assert (Ht : trace r =
               removelast (trace r) ++
               Subprocess cmd (Some Examples.simbody_build) (Exited 2) :: [])
    by (vm_compute; reflexivity).
  split; [exact Ht|].
  assert (Ho : Exited 2 <> Exited 0) by discriminate.
  exact (proj1 (proj2 (nothing_follows_a_failed_tool
           (H := Examples.broken_simbody) "simbody" false
           (Examples.on Examples.broken_simbody Examples.checkout tt)
           _ _ _ _ _ Ht Ho))).
Defined.

(** ** Every command is announced *)

Section Announcements.

Context `{Host}.

Lemma announced_app t1 t2 : announced t1 -> announced t2 -> announced (t1 ++ t2).
Proof.
  intros H1 H2 i cmd cwd o Hl.
  destruct (decide (i < length t1)) as [Hi|Hi].
  - rewrite lookup_app_l in Hl by exact Hi.
    destruct (H1 _ _ _ _ Hl) as (j & -> & Hj). exists j. split; [reflexivity|].
    rewrite lookup_app_l; [exact Hj|]. now apply lookup_lt_Some in Hj.
  - rewrite lookup_app_r in Hl by lia.
    destruct (H2 _ _ _ _ Hl) as (j & Hij & Hj).
    exists (length t1 + j)%nat. split; [lia|].
    rewrite lookup_app_r by lia.
    now replace (length t1 + j - length t1)%nat with j by lia.
Qed.

Lemma announced_quiet t :
  (forall cmd cwd o, ~ In (Subprocess cmd cwd o) t) -> announced t.
Proof.
  intros Hq i cmd cwd o Hl.
  apply list_elem_of_lookup_2, list_elem_of_In in Hl. now apply Hq in Hl.
Qed.

Lemma an_bind {A B} (m : M A) (k : A -> M B) :
  announces m -> (forall x, announces (k x)) -> announces (bind m k).
Proof.
  intros Hm Hk w. rewrite trace_bind. apply announced_app; [apply Hm|].
  destruct (value (m w)); [|apply Hk]. apply announced_quiet. simpl. tauto.
Qed.

Lemma an_quiet {A} (m : M A) :
  (forall w cmd cwd o, ~ In (Subprocess cmd cwd o) (trace (m w))) ->
  announces m.
Proof. intros Hq w. apply announced_quiet, Hq. Qed.

Lemma an_ret {A} (x : A) : announces (ret x).
Proof. apply an_quiet. simpl. tauto. Qed.

Lemma an_print s : announces (print s).
Proof. apply an_quiet. simpl. intros w cmd cwd o [?|[]]. discriminate. Qed.

Lemma an_path_exists p : announces (path_exists p).
Proof. apply an_quiet. simpl. tauto. Qed.

Lemma an_mkdir p e : announces (mkdir p e).
Proof.
  apply an_quiet. intros w cmd cwd o. rewrite trace_mkdir.
  intros [?|[]]. discriminate.
Qed.

Lemma an_rmtree p : announces (rmtree p).
Proof.
  apply an_quiet. intros w cmd cwd o. rewrite trace_rmtree.
  intros [?|[]]. discriminate.
Qed.

Lemma an_getitem {V} (d : dict V) k : announces (getitem d k).
Proof.
  apply an_quiet. intros w cmd cwd o. unfold getitem.
  destruct (dict_get d k); simpl; tauto.
Qed.

Lemma an_run cmd cwd : announces (run cmd cwd).
Proof.
  intros w i cmd' cwd' o. rewrite trace_run.
  destruct i as [|[|i]]; simpl; [discriminate| |discriminate].
  intros [= <- <- <-]. now exists 0%nat.
Qed.

Lemma an_called {A} f (body : M A) : announces body -> announces (called f body).
Proof.
  intros Hb w. rewrite called_eq. cbn [trace].
  apply (announced_app [Call f]).
  - apply announced_quiet. simpl. intros cmd cwd o [?|[]]. discriminate.
  - apply announced_app; [apply Hb|].
    apply announced_quiet. intros cmd cwd o.
    destruct (value (body w)); simpl; [tauto|]. intros [?|[]]. discriminate.
Qed.

Lemma an_for_each {A} (xs : list A) (body : A -> M unit) :
  (forall x, announces (body x)) -> announces (for_each xs body).
Proof.
  intros Hb. induction xs as [|x xs IH]; simpl; [apply an_ret|].
  apply an_bind; [apply Hb|intros _; apply IH].
Qed.

Ltac an :=
  repeat match goal with
         | |- forall _, _ => intros ?
         | |- announces (if ?b then _ else _) => destruct b
         | |- announces (run _ _) => apply an_run
         | |- announces (called _ _) => apply an_called
         | |- announces (for_each _ _) => apply an_for_each
         | |- announces (bind _ _) => apply an_bind
         | |- announces _ =>
             first [ apply an_ret | apply an_print | apply an_path_exists
                   | apply an_mkdir | apply an_rmtree | apply an_getitem ]
         end.

Lemma an_cmake name extra : announces (cmake_configure_and_build name extra).
Proof. unfold cmake_configure_and_build. an. Qed.

Lemma an_dispatch target rebuild : announces (dispatch target rebuild).
Proof.
  unfold dispatch.
  destruct (String.eqb target "deps"); [unfold install_system_deps; an|].
  destruct (String.eqb target "osg"); [unfold build_osg; an; apply an_cmake|].
  destruct (String.eqb target "simbody");
    [unfold build_simbody; an; apply an_cmake|].
  destruct (String.eqb target "opensim");
    [unfold build_opensim; an; apply an_cmake|].
  destruct (String.eqb target "scone");
    [unfold build_scone; an; apply an_cmake|].
  destruct (String.eqb target "all"); [|apply an_ret].
  unfold build_all.
  apply an_bind; [unfold build_osg; an; apply an_cmake|intros _].
  apply an_bind; [unfold build_simbody; an; apply an_cmake|intros _].
  apply an_bind; [unfold build_opensim; an; apply an_cmake|intros _].
  unfold build_scone; an; apply an_cmake.
Qed.

Lemma an_main target rebuild : announces (main target rebuild).
Proof.
  unfold main. apply an_bind; [unfold ensure_dirs; an|].
  intros _. apply an_dispatch.
Qed.

End Announcements.

(** X12. Every command is announced: in any run, each child process comes
    right after the line [>> Running: ...] that shows its command line,
    the arguments joined by spaces, whatever the outcome of the process.
    The console therefore shows the command that failed last. *)
Theorem every_command_is_announced `{Host}
    (target : string) (rebuild : bool) (w : world)
    (i : nat) (cmd : list string) (cwd : option path) (o : outcome) :
  trace (main target rebuild w) !! i = Some (Subprocess cmd cwd o) ->
  exists j,
    i = S j /\
    trace (main target rebuild w) !! j =
      Some (Print (newline +:+ ">> Running: " +:+ String.concat " " cmd)).
Proof. apply an_main. Qed.

Lemma every_command_is_announced_witness :
  trace Examples.failing_run !! 8%nat =
    Some (Print (String "010"%char
      ">> Running: cmake /home/dev/scone-studio/submodules/simbody -DCMAKE_BUILD_TYPE=Release -DCMAKE_INSTALL_PREFIX=/home/dev/scone-studio/dependencies/simbody/install -DCMAKE_POLICY_VERSION_MINIMUM=3.5")).
Proof.
  set (cmd := [ "cmake"; "/home/dev/scone-studio/submodules/simbody";
                "-DCMAKE_BUILD_TYPE=Release";
                "-DCMAKE_INSTALL_PREFIX=/home/dev/scone-studio/dependencies/simbody/install";
                "-DCMAKE_POLICY_VERSION_MINIMUM=3.5" ]).
  assert (Hl : trace Examples.failing_run !! 9%nat =
               Some (Subprocess cmd (Some Examples.simbody_build) (Exited 2)))
    by (vm_compute; reflexivity).
  destruct (every_command_is_announced
              (H := Examples.broken_simbody) "simbody" false
              (Examples.on Examples.broken_simbody Examples.checkout tt)
              9 cmd _ _ Hl) as (j & Hj & Hp).
  injection Hj as <-. exact Hp.
Defined.

(** ** What a step leaves alone *)

Section Frame.

Context `{Host}.

Lemma lv_bind {A B} p (m : M A) (k : A -> M B) :
  leaves p m -> (forall x, leaves p (k x)) -> leaves p (bind m k).
Proof.
  intros Hm Hk w. rewrite final_bind.
  destruct (value (m w)) as [e|x]; [apply Hm|]. now rewrite Hk.
Qed.

Lemma lv_ret {A} p (x : A) : leaves p (ret x).
Proof. intros w. reflexivity. Qed.

Lemma lv_print p s : leaves p (print s).
Proof. intros w. reflexivity. Qed.

Lemma lv_path_exists p q : leaves p (path_exists q).
Proof. intros w. reflexivity. Qed.

Lemma lv_mkdir p q e : p <> q -> leaves p (mkdir q e).
Proof.
  intros Hne w. unfold mkdir. repeat case_match; simpl; try reflexivity.
  now apply lookup_insert_ne.
Qed.

Lemma lv_rmtree p q : ¬ (q `prefix_of` p) -> leaves p (rmtree q).
Proof.
  intros Hq w. unfold rmtree. repeat case_match; simpl; try reflexivity.
  now apply lookup_rmtree_beside.
Qed.

Lemma lv_run p cmd cwd : tools_leave p -> leaves p (run cmd cwd).
Proof. intros Ht w. apply Ht. Qed.

Lemma lv_called {A} p f (body : M A) : leaves p body -> leaves p (called f body).
Proof. intros Hb w. rewrite called_eq. apply Hb. Qed.

Lemma lv_cmake p name extra :
  In name dependencies ->
  tools_leave p ->
  ¬ (build_dir name `prefix_of` p) ->
  leaves p (cmake_configure_and_build name extra).
Proof.
  intros Hn Ht Hp w. destruct (In_dependencies _ Hn) as [src Hsrc].
  assert (Hd := dict_get_DEPSDIRS _ Hn).
  unfold cmake_configure_and_build, getitem.
  rewrite Hsrc, Hd. rewrite !bind_ret. fold (build_dir name).
  assert (Hne : p <> build_dir name) by (intros ->; now apply Hp).
  revert w. apply lv_bind; [apply lv_path_exists|intros there].
  apply lv_bind; [destruct there; [now apply lv_rmtree|apply lv_ret]|intros _].
  apply lv_bind; [now apply lv_mkdir|intros _].
  apply lv_bind; [now apply lv_run|intros _].
  apply lv_bind; [now apply lv_run|intros _]. now apply lv_run.
Qed.

End Frame.

(** X13. A build step changes nothing outside its build directory except
    through the tools it runs: an entry that is not the build directory or
    below it, and that the tools leave as it is, is after the step what it
    was before, whether the step is skipped, completes or fails.  So a
    forced rebuild does not by itself remove the old install directory,
    nor does any step touch the sources. *)
Theorem step_touches_only_its_build_directory `{Host}
    (name : string) (force : bool) (w : world) (p : path) :
  In name dependencies ->
  tools_leave p ->
  ¬ (build_dir name `prefix_of` p) ->
  w_fs (final (dispatch name force w)) !! p = w_fs w !! p.
Proof.
  intros Hn Ht Hp.
  destruct (step_shape name force w Hn) as (notice & extra & ->).
  destruct (_ && _ && _); [reflexivity|].
  apply lv_called. now apply lv_cmake.
Qed.

Lemma step_touches_only_its_build_directory_witness :
  let h := Examples.inert in
  let w := Examples.on h Examples.simbody_installed tt in
  let r := dispatch "simbody" true w in
  value r = inr tt /\
  w_fs (final r) !! install_dir "simbody" = Some Dir /\
  w_fs w !! (build_dir "simbody" // "CMakeCache.txt") = Some File /\
  w_fs (final r) !! (build_dir "simbody" // "CMakeCache.txt") = None.
Proof.
  intros h w r.
  assert (Hn : In "simbody" dependencies) by (simpl; tauto).
  assert (Ht : tools_leave (install_dir "simbody"))
    by (intros cmd cwd env fs; reflexivity).
  assert (Hp : ¬ (build_dir "simbody" `prefix_of` install_dir "simbody")).
  { intros [k Hk]. vm_compute in Hk. discriminate. }
  split; [vm_compute; reflexivity|]. split.
  - subst r.
    rewrite (step_touches_only_its_build_directory
               "simbody" true w _ Hn Ht Hp).
    vm_compute; reflexivity.
  - split; vm_compute; reflexivity.
Defined.

(** ** The filesystem operations of the script itself *)

Section Own_operations.

Context `{Host}.

(** The events of a step. *)
Lemma step_events name force w e :
  In name dependencies ->
  In e (trace (dispatch name force w)) ->
  e = Call (step name) \/ e = Return (step name) \/
  (exists s, e = Print s) \/
  e = Rmtree (build_dir name) \/ e = Mkdir (build_dir name) false \/
  exists cmd o, e = Subprocess cmd (Some (build_dir name)) o.
Proof.
  intros Hn. destruct (In_dependencies _ Hn) as [src Hsrc].
  destruct (step_shape name force w Hn) as (notice & extra & ->).
  destruct (_ && _ && _).
  - simpl. intros [<-|[<-|[<-|[]]]]; eauto 6.
  - destruct (called_cmake_full name src extra w Hsrc)
      as [(o2 & o3 & [k Hpre]) _].
    intros Hin.
    assert (Hin' : In e
              (Call (step name) :: full_sequence src name extra
                 (bool_decide (is_Some (stat (w_fs w) (build_dir name))))
                 (outcome_of (configure_cmd src name extra)
                    (Some (build_dir name))
                    (World (after_reset (w_fs w) (build_dir name)) (w_env w)))
                 o2 o3 ++ [Return (step name)])).
    { rewrite Hpre. apply in_or_app. now left. }
    revert Hin'. unfold full_sequence, ran, banner.
    destruct (bool_decide _); simpl; intuition (subst; eauto 8).
Qed.

Lemma build_all_events force w e :
  In e (trace (build_all force w)) ->
  exists name w', In name dependencies /\ In e (trace (dispatch name force w')).
Proof.
  destruct (build_steps_are_dispatched force) as (E1 & E2 & E3 & E4).
  unfold build_all. rewrite E1, E2, E3, E4.
  rewrite trace_bind. intros Hin. apply in_app_or in Hin as [Hin|Hin].
  { exists "osg", w. split; [simpl; tauto|exact Hin]. }
  destruct (value _); [destruct Hin|].
  rewrite trace_bind in Hin. apply in_app_or in Hin as [Hin|Hin].
  { eexists "simbody", _. split; [simpl; tauto|exact Hin]. }
  destruct (value _); [destruct Hin|].
  rewrite trace_bind in Hin. apply in_app_or in Hin as [Hin|Hin].
  { eexists "opensim", _. split; [simpl; tauto|exact Hin]. }
  destruct (value _); [destruct Hin|].
  eexists "scone", _. split; [simpl; tauto|exact Hin].
Qed.

(** The events of a run. *)
Lemma main_events target rebuild w e :
  In e (trace (main target rebuild w)) ->
  (exists d, In d made_dirs /\ e = Mkdir d true) \/
  (exists s, e = Print s) \/
  (exists cmd o, e = Subprocess cmd None o) \/
  (exists name w', In name dependencies /\
                   In e (trace (dispatch name rebuild w'))).
Proof.
  unfold main. rewrite trace_bind. intros Hin.
  apply in_app_or in Hin as [Hin|Hin];
    [left; exact (ensure_dirs_events w e Hin)|].
  destruct (value (ensure_dirs w)); [destruct Hin|]. right.
  revert Hin. unfold dispatch.
  destruct (String.eqb target "deps").
  { intros Hin.
    destruct (install_system_deps_spec (final (ensure_dirs w)))
      as (_ & _ & Hev).
    destruct (Hev e Hin) as [?|?]; tauto. }
  destruct (build_steps_are_dispatched rebuild) as (E1 & E2 & E3 & E4).
  destruct (String.eqb target "osg").
  { rewrite E1. intros Hin. right. right. eexists "osg", _.
    split; [simpl; tauto|exact Hin]. }
  destruct (String.eqb target "simbody").
  { rewrite E2. intros Hin. right. right. eexists "simbody", _.
    split; [simpl; tauto|exact Hin]. }
  destruct (String.eqb target "opensim").
  { rewrite E3. intros Hin. right. right. eexists "opensim", _.
    split; [simpl; tauto|exact Hin]. }
  destruct (String.eqb target "scone").
  { rewrite E4. intros Hin. right. right. eexists "scone", _.
    split; [simpl; tauto|exact Hin]. }
  destruct (String.eqb target "all").
  { intros Hin. right. right. exact (build_all_events _ _ _ Hin). }
  intros [].
Qed.

End Own_operations.

(** X14. The script itself deletes and creates very little.  In any run,
    the only thing it ever deletes is the build directory of a
    dependency; the only directories it makes are the six of
    [ensure_dirs], accepting them if they exist, and the build directory
    of a dependency, which must not exist.  It never deletes or creates an
    install directory or anything among the sources: those are left to the
    tools. *)
Theorem own_filesystem_operations_are_confined `{Host}
    (target : string) (rebuild : bool) (w : world) (e : event) :
  In e (trace (main target rebuild w)) ->
  match e with
  | Rmtree p => exists name, In name dependencies /\ p = build_dir name
  | Mkdir p true => In p made_dirs
  | Mkdir p false => exists name, In name dependencies /\ p = build_dir name
  | _ => True
  end.
Proof.
  intros Hin.
  destruct (main_events _ _ _ _ Hin)
    as [(d & Hd & ->)|[(s & ->)|[(cmd & o & ->)|(name & w' & Hn & Hs)]]];
    try exact I; try exact Hd.
  destruct (step_events _ _ _ _ Hn Hs)
    as [->|[->|[(s & ->)|[->|[->|(cmd & o & ->)]]]]]; try exact I; eauto.
Qed.

Lemma own_filesystem_operations_are_confined_witness :
  let h := Examples.inert in
  let w := Examples.on h Examples.simbody_installed tt in
  In (Rmtree (build_dir "simbody")) (trace (main "simbody" true w)) /\
  exists name, In name dependencies /\ build_dir "simbody" = build_dir name.
Proof.
  intros h w.
  assert (Hin : In (Rmtree (build_dir "simbody"))
                   (trace (main "simbody" true w))) by (vm_compute; tauto).
  split; [exact Hin|].
  exact (own_filesystem_operations_are_confined "simbody" true w _ Hin).
Defined.

(** ** What stops a run when the tools behave *)

Section Well_behaved_tools.

Context `{Host}.

Hypothesis tools_exit_with_0 :
  forall cmd cwd w', outcome_of cmd cwd w' = Exited 0.



End Well_behaved_tools.


